(** * Alert engine of the stock-watchlist tracker

    A shallow embedding of [src/models/alert.js] (the Mongoose model
    [Alert]): the condition evaluator [checkConditions], the trigger gate
    (the virtuals [isExpired] and [canTriggerAgain]) and the lifecycle
    methods [trigger], [reset], [snooze], [cancel], [enable], [disable],
    together with the two [pre('save')] hooks that every [save()] runs,
    and the static [checkStockAlerts].

    Conventions of the embedding.
    - A [Date] is its epoch value in milliseconds, an integer ([Z]); a
      nullable date is an [option Z] ([None] is [null]).  Every
      [new Date()] / [Date.now()] read inside one call is the same instant,
      passed in as [now].
    - [sendCount], [maxSends] and [cooldownMinutes] are schema [Number]s
      that the validators only bound from below: they are rationals
      ([Q]), so that fractional values are covered.  Sums and products of
      them are exact; a statement that depends on such a sum or product
      being the value the code computes assumes whole numbers.
      [triggerCount] and [version] are integers ([Z]).
    - Prices, volumes and targets are JavaScript numbers, see [JS.num]:
      finite values are rationals with exact arithmetic (rounding of
      binary64 is not modelled, and -0 is identified with +0), and the
      three special values [Infinity], [-Infinity], [NaN] follow IEEE 754.
    - A populated stock always has its nested object [dailyData] (Mongoose
      defines every nested path of a document); the property
      [previousClose] inside it may be absent.
    - A method call either completes normally or throws, see
      [JS.completion].  An alert is a stored document: its fields passed
      the schema validators when it was written, and the store is
      available, so a [save()] rejects only for what the call itself
      assigned: a value that fails its cast ([NaN] on a [Number] path, an
      Invalid Date on a [Date] path) makes [save()] reject with a
      [ValidationError].  The schema sets no optimistic-concurrency
      option, so a [save()] that validates writes unconditionally.
    - The record [Alert] holds the fields that the modelled code reads or
      writes; the timestamps [createdAt] / [updatedAt] kept by Mongoose
      and the descriptive fields are not part of it. *)

From Stdlib Require Import ZArith QArith Bool String List Lia Lqa.
Import ListNotations.
Open Scope Z_scope.

(** ** JavaScript values used by the model *)

Module JS.

(** A JavaScript number. *)
Inductive num : Type :=
| Fin (q : Q)
| PosInf
| NegInf
| NaN.

(** [ToNumber] of a possibly missing property: [undefined] becomes [NaN]. *)
Definition toNumber (o : option num) : num :=
  match o with
  | Some n => n
  | None => NaN
  end.

Definition is_zero (q : Q) : bool := Qeq_bool q 0.
Definition is_pos (q : Q) : bool := negb (Qle_bool q 0).
Definition is_neg (q : Q) : bool := negb (Qle_bool 0 q).

(** [x < y] on finite numbers. *)
Definition Qlt_bool (x y : Q) : bool := negb (Qle_bool y x).

(** [a - b] *)
Definition sub (a b : num) : num :=
  match a, b with
  | NaN, _ | _, NaN => NaN
  | Fin x, Fin y => Fin (x - y)
  | PosInf, PosInf => NaN
  | NegInf, NegInf => NaN
  | PosInf, _ => PosInf
  | NegInf, _ => NegInf
  | Fin _, PosInf => NegInf
  | Fin _, NegInf => PosInf
  end.

(** The infinity that has the sign of [x] times the sign of the
    infinity [pos]; [NaN] for [x = 0]. *)
Definition signed_inf (pos : bool) (x : Q) : num :=
  if is_zero x then NaN
  else if Bool.eqb pos (is_pos x) then PosInf else NegInf.

(** [a * b] *)
Definition mul (a b : num) : num :=
  match a, b with
  | NaN, _ | _, NaN => NaN
  | Fin x, Fin y => Fin (x * y)
  | PosInf, Fin y => signed_inf true y
  | NegInf, Fin y => signed_inf false y
  | Fin x, PosInf => signed_inf true x
  | Fin x, NegInf => signed_inf false x
  | PosInf, PosInf | NegInf, NegInf => PosInf
  | PosInf, NegInf | NegInf, PosInf => NegInf
  end.

(** [a / b]: a finite non-zero number over zero is an infinity, zero
    over zero is [NaN]; nothing throws. *)
Definition div (a b : num) : num :=
  match a, b with
  | NaN, _ | _, NaN => NaN
  | Fin x, Fin y =>
      if is_zero y then signed_inf true x else Fin (x / y)
  | Fin _, (PosInf | NegInf) => Fin 0
  | (PosInf | NegInf), (PosInf | NegInf) => NaN
  | PosInf, Fin y => if is_neg y then NegInf else PosInf
  | NegInf, Fin y => if is_neg y then PosInf else NegInf
  end.

(** [a >= b]: false as soon as one side is [NaN]. *)
Definition ge (a b : num) : bool :=
  match a, b with
  | NaN, _ | _, NaN => false
  | Fin x, Fin y => Qle_bool y x
  | PosInf, _ => true
  | _, NegInf => true
  | Fin _, PosInf => false
  | NegInf, _ => false
  end.

(** [a <= b] *)
Definition le (a b : num) : bool := ge b a.

(** Truthiness of a number: [0] and [NaN] are falsy. *)
Definition num_truthy (n : num) : bool :=
  match n with
  | Fin x => negb (is_zero x)
  | PosInf | NegInf => true
  | NaN => false
  end.

(** [x || 0] on a possibly missing number. *)
Definition or_zero (o : option num) : num :=
  match o with
  | Some n => if num_truthy n then n else Fin 0
  | None => Fin 0
  end.

(** What [checkConditions] can return: a boolean, or the falsy left
    operand of an [&&] (a number or [null]). *)
Inductive value : Type :=
| VBool (b : bool)
| VNum (n : num)
| VNull.

Definition truthy (v : value) : bool :=
  match v with
  | VBool b => b
  | VNum n => num_truthy n
  | VNull => false
  end.

(** [v && rhs] where [v] is a number or [null]: a falsy [v] is itself the
    result. *)
Definition and_then (v : option num) (rhs : num -> bool) : value :=
  match v with
  | None => VNull
  | Some n => if num_truthy n then VBool (rhs n) else VNum n
  end.

(** Outcome of a call: normal completion with a value, or an exception
    identified by its [name]. *)
Inductive completion (A : Type) : Type :=
| Normal (v : A)
| Throw (name : string).
Arguments Normal {A} v.
Arguments Throw {A} name.

Definition bind {A B : Type} (c : completion A) (k : A -> completion B)
  : completion B :=
  match c with
  | Normal v => k v
  | Throw e => Throw e
  end.

End JS.

Notation "'await' x '<-' c ';;' k" := (JS.bind c (fun x => k))
  (at level 61, x name, c at next level, right associativity).

(** ** Data model *)

Inductive ConditionType : Type :=
| PRICE_ABOVE
| PRICE_BELOW
| PRICE_PERCENT_UP
| PRICE_PERCENT_DOWN
| VOLUME_ABOVE
| VOLUME_BELOW
| PRICE_CHANGE_UP
| PRICE_CHANGE_DOWN.

Inductive Status : Type :=
| ACTIVE
| TRIGGERED
| CANCELLED
| EXPIRED
| DISABLED.

Definition Status_eqb (s t : Status) : bool :=
  match s, t with
  | ACTIVE, ACTIVE | TRIGGERED, TRIGGERED | CANCELLED, CANCELLED
  | EXPIRED, EXPIRED | DISABLED, DISABLED => true
  | _, _ => false
  end.

(** The part of the [Stock] document that the alert code reads
    ([src/models/stock.js]). *)
Module Stock.

Record CurrentPrice : Type := {
  price : JS.num;
  change : option JS.num
}.

Record DailyData : Type := {
  previousClose : option JS.num
}.

Record t : Type := {
  symbol : string;
  currentPrice : option CurrentPrice;
  dailyData : DailyData
}.

End Stock.

(** [this.stock]: [null], an unpopulated [ObjectId], or the populated
    document. *)
Inductive StockRef : Type :=
| StockNull
| StockId
| StockDoc (s : Stock.t).

Record Condition : Type := {
  type : ConditionType;
  targetValue : JS.num
}.

Record Notification : Type := {
  lastSent : option Z;
  sendCount : Q;
  maxSends : Q;
  cooldownMinutes : Q
}.

Record TriggerData : Type := {
  priceAtTrigger : option JS.num;
  volumeAtTrigger : option JS.num;
  changeAtTrigger : option JS.num;
  conditionsMet : list (ConditionType * bool)
}.

Record UserPreferences : Type := {
  snoozeUntil : option Z;
  isMuted : bool
}.

Record Alert : Type := {
  stock : StockRef;
  stockSymbol : string;
  condition : Condition;
  status : Status;
  isActive : bool;
  notification : Notification;
  triggeredAt : option Z;
  triggerCount : Z;
  triggerData : TriggerData;
  endDate : option Z;
  expiresAt : option Z;
  userPreferences : UserPreferences;
  version : Z
}.

(** Field assignments ([this.f = v]). *)

Definition set_lastSent (v : option Z) (n : Notification) : Notification :=
  {| lastSent := v; sendCount := sendCount n; maxSends := maxSends n;
     cooldownMinutes := cooldownMinutes n |}.

Definition set_sendCount (v : Q) (n : Notification) : Notification :=
  {| lastSent := lastSent n; sendCount := v; maxSends := maxSends n;
     cooldownMinutes := cooldownMinutes n |}.

Definition set_snoozeUntil (v : option Z) (u : UserPreferences)
  : UserPreferences :=
  {| snoozeUntil := v; isMuted := isMuted u |}.

Definition set_isMuted (v : bool) (u : UserPreferences) : UserPreferences :=
  {| snoozeUntil := snoozeUntil u; isMuted := v |}.

Definition set_stockSymbol (v : string) (a : Alert) : Alert :=
  {| stock := stock a; stockSymbol := v; condition := condition a;
     status := status a; isActive := isActive a;
     notification := notification a; triggeredAt := triggeredAt a;
     triggerCount := triggerCount a; triggerData := triggerData a;
     endDate := endDate a; expiresAt := expiresAt a;
     userPreferences := userPreferences a; version := version a |}.

Definition set_status (v : Status) (a : Alert) : Alert :=
  {| stock := stock a; stockSymbol := stockSymbol a; condition := condition a;
     status := v; isActive := isActive a;
     notification := notification a; triggeredAt := triggeredAt a;
     triggerCount := triggerCount a; triggerData := triggerData a;
     endDate := endDate a; expiresAt := expiresAt a;
     userPreferences := userPreferences a; version := version a |}.

Definition set_isActive (v : bool) (a : Alert) : Alert :=
  {| stock := stock a; stockSymbol := stockSymbol a; condition := condition a;
     status := status a; isActive := v;
     notification := notification a; triggeredAt := triggeredAt a;
     triggerCount := triggerCount a; triggerData := triggerData a;
     endDate := endDate a; expiresAt := expiresAt a;
     userPreferences := userPreferences a; version := version a |}.

Definition set_notification (v : Notification) (a : Alert) : Alert :=
  {| stock := stock a; stockSymbol := stockSymbol a; condition := condition a;
     status := status a; isActive := isActive a;
     notification := v; triggeredAt := triggeredAt a;
     triggerCount := triggerCount a; triggerData := triggerData a;
     endDate := endDate a; expiresAt := expiresAt a;
     userPreferences := userPreferences a; version := version a |}.

Definition set_triggeredAt (v : option Z) (a : Alert) : Alert :=
  {| stock := stock a; stockSymbol := stockSymbol a; condition := condition a;
     status := status a; isActive := isActive a;
     notification := notification a; triggeredAt := v;
     triggerCount := triggerCount a; triggerData := triggerData a;
     endDate := endDate a; expiresAt := expiresAt a;
     userPreferences := userPreferences a; version := version a |}.

Definition set_triggerCount (v : Z) (a : Alert) : Alert :=
  {| stock := stock a; stockSymbol := stockSymbol a; condition := condition a;
     status := status a; isActive := isActive a;
     notification := notification a; triggeredAt := triggeredAt a;
     triggerCount := v; triggerData := triggerData a;
     endDate := endDate a; expiresAt := expiresAt a;
     userPreferences := userPreferences a; version := version a |}.

Definition set_triggerData (v : TriggerData) (a : Alert) : Alert :=
  {| stock := stock a; stockSymbol := stockSymbol a; condition := condition a;
     status := status a; isActive := isActive a;
     notification := notification a; triggeredAt := triggeredAt a;
     triggerCount := triggerCount a; triggerData := v;
     endDate := endDate a; expiresAt := expiresAt a;
     userPreferences := userPreferences a; version := version a |}.

Definition set_expiresAt (v : option Z) (a : Alert) : Alert :=
  {| stock := stock a; stockSymbol := stockSymbol a; condition := condition a;
     status := status a; isActive := isActive a;
     notification := notification a; triggeredAt := triggeredAt a;
     triggerCount := triggerCount a; triggerData := triggerData a;
     endDate := endDate a; expiresAt := v;
     userPreferences := userPreferences a; version := version a |}.

Definition set_userPreferences (v : UserPreferences) (a : Alert) : Alert :=
  {| stock := stock a; stockSymbol := stockSymbol a; condition := condition a;
     status := status a; isActive := isActive a;
     notification := notification a; triggeredAt := triggeredAt a;
     triggerCount := triggerCount a; triggerData := triggerData a;
     endDate := endDate a; expiresAt := expiresAt a;
     userPreferences := v; version := version a |}.

(** [this.triggerData = {}]: every path of the nested object is cleared. *)
Definition emptyTriggerData : TriggerData :=
  {| priceAtTrigger := None; volumeAtTrigger := None;
     changeAtTrigger := None; conditionsMet := [] |}.

(** ** Trigger gate: the virtuals [isExpired] and [canTriggerAgain] *)

(** [if (!this.expiresAt) return false; return this.expiresAt < new Date();] *)
Definition isExpired (now : Z) (a : Alert) : bool :=
  match expiresAt a with
  | None => false
  | Some e => e <? now
  end.

(** [this.userPreferences.snoozeUntil && this.userPreferences.snoozeUntil > new Date()] *)
Definition snoozed (now : Z) (a : Alert) : bool :=
  match snoozeUntil (userPreferences a) with
  | None => false
  | Some s => now <? s
  end.

(** [const cooldownMs = this.notification.cooldownMinutes * 60 * 1000;] *)
Definition cooldownMs (a : Alert) : Q :=
  (cooldownMinutes (notification a) * 60 * 1000)%Q.

Definition canTriggerAgain (now : Z) (a : Alert) : bool :=
  if negb (Status_eqb (status a) ACTIVE) then false
  else if isExpired now a then false
  else if Qle_bool (maxSends (notification a)) (sendCount (notification a))
  then false
  else if snoozed now a then false
  else
    match lastSent (notification a) with
    | Some sent =>
        if JS.Qlt_bool 0 (cooldownMinutes (notification a)) then
          JS.Qlt_bool (cooldownMs a) (inject_Z (now - sent))
        else true
    | None => true
    end.

(** ** Condition evaluator: [checkConditions(currentPrice, volume = null)] *)

Definition checkConditions (a : Alert) (currentPrice : JS.num)
    (volume : option JS.num) : JS.value :=
  let target := targetValue (condition a) in
  match stock a with
  | StockNull | StockId => JS.VBool false
  | StockDoc s =>
      match Stock.currentPrice s with
      | None => JS.VBool false
      | Some _ =>
          let previousClose :=
            JS.toNumber (Stock.previousClose (Stock.dailyData s)) in
          match type (condition a) with
          | PRICE_ABOVE => JS.VBool (JS.ge currentPrice target)
          | PRICE_BELOW => JS.VBool (JS.le currentPrice target)
          | PRICE_PERCENT_UP =>
              let percentUp :=
                JS.mul (JS.div (JS.sub currentPrice previousClose)
                               previousClose) (JS.Fin 100) in
              JS.VBool (JS.ge percentUp target)
          | PRICE_PERCENT_DOWN =>
              let percentDown :=
                JS.mul (JS.div (JS.sub previousClose currentPrice)
                               previousClose) (JS.Fin 100) in
              JS.VBool (JS.ge percentDown target)
          | VOLUME_ABOVE => JS.and_then volume (fun v => JS.ge v target)
          | VOLUME_BELOW => JS.and_then volume (fun v => JS.le v target)
          | PRICE_CHANGE_UP =>
              let changeUp := JS.sub currentPrice previousClose in
              JS.VBool (JS.ge changeUp target)
          | PRICE_CHANGE_DOWN =>
              let changeDown := JS.sub previousClose currentPrice in
              JS.VBool (JS.ge changeDown target)
          end
      end
  end.

(** ** Persistence: the [pre('save')] hooks and [save()] *)

(** [this.stock && this.stock.symbol]: the symbol of a populated stock,
    when it is a non-empty string. *)
Definition stock_symbol (a : Alert) : option string :=
  match stock a with
  | StockDoc s =>
      if String.eqb (Stock.symbol s) EmptyString then None
      else Some (Stock.symbol s)
  | StockNull | StockId => None
  end.

(** First hook: fill [stockSymbol] from the populated stock. *)
Definition pre_save_stockSymbol (a : Alert) : Alert :=
  match stock_symbol a with
  | Some sym =>
      if String.eqb (stockSymbol a) EmptyString then set_stockSymbol sym a
      else a
  | None => a
  end.

(** Second hook: [if (this.endDate && !this.expiresAt) this.expiresAt = this.endDate;] *)
Definition pre_save_expiresAt (a : Alert) : Alert :=
  match endDate a, expiresAt a with
  | Some e, None => set_expiresAt (Some e) a
  | _, _ => a
  end.

Definition save (a : Alert) : JS.completion Alert :=
  JS.Normal (pre_save_expiresAt (pre_save_stockSymbol a)).

(** The cast of a value assigned to a [Number] path: [null] and every
    number pass, [NaN] fails. *)
Definition casts_to_Number (o : option JS.num) : bool :=
  match o with
  | Some JS.NaN => false
  | Some _ | None => true
  end.

(** The cast of [new Date(t)] assigned to a [Date] path: beyond 8.64e15 ms
    on either side of the epoch the date is an Invalid Date, which fails. *)
Definition casts_to_Date (t : Z) : bool :=
  (-8640000000000000 <=? t) && (t <=? 8640000000000000).

(** [save()] after the assignments of a method: a failed cast stays on the
    document and makes the validation of [save()] reject. *)
Definition save_assigned (casts : bool) (a : Alert) : JS.completion Alert :=
  if casts then save a else JS.Throw "ValidationError".

(** ** Lifecycle methods *)

(** [this.stock?.currentPrice?.change || 0] *)
Definition stock_change (a : Alert) : JS.num :=
  match stock a with
  | StockDoc s =>
      match Stock.currentPrice s with
      | Some cp => JS.or_zero (Stock.change cp)
      | None => JS.Fin 0
      end
  | StockNull | StockId => JS.Fin 0
  end.

(** The assignments of [trigger] that precede [await this.save()]. *)
Definition trigger_fields (now : Z) (currentPrice : JS.num)
    (volume : option JS.num) (a : Alert) : Alert :=
  let a := set_status TRIGGERED a in
  let a := set_triggeredAt (Some now) a in
  let a := set_triggerCount (triggerCount a + 1) a in
  let a := set_triggerData
             {| priceAtTrigger := Some currentPrice;
                volumeAtTrigger := volume;
                changeAtTrigger := Some (stock_change a);
                conditionsMet := [(type (condition a), true)] |} a in
  let a := set_notification (set_lastSent (Some now) (notification a)) a in
  let a := set_notification
             (set_sendCount (sendCount (notification a) + 1)%Q
                            (notification a)) a in
  if Qle_bool (maxSends (notification a)) (sendCount (notification a))
  then set_isActive false a
  else a.

(** [trigger(currentPrice, volume = null)]: the arguments are assigned to
    [triggerData.priceAtTrigger] and [triggerData.volumeAtTrigger]; the
    event emitted after the save has no listener. *)
Definition trigger (now : Z) (currentPrice : JS.num)
    (volume : option JS.num) (a : Alert) : JS.completion Alert :=
  let casts :=
    casts_to_Number (Some currentPrice) && casts_to_Number volume in
  await saved <-
    save_assigned casts (trigger_fields now currentPrice volume a) ;;
  JS.Normal saved.

Definition reset (a : Alert) : JS.completion Alert :=
  let a := set_status ACTIVE a in
  let a := set_triggeredAt None a in
  let a := set_triggerData emptyTriggerData a in
  let a := set_notification (set_sendCount 0 (notification a)) a in
  let a := set_notification (set_lastSent None (notification a)) a in
  save a.

(** [snooze(minutes = 60)], for a whole number of minutes. *)
Definition snooze (now : Z) (minutes : Z) (a : Alert)
  : JS.completion Alert :=
  let until := now + minutes * 60 * 1000 in
  save_assigned (casts_to_Date until)
    (set_userPreferences
       (set_snoozeUntil (Some until) (userPreferences a)) a).

Definition cancel (a : Alert) : JS.completion Alert :=
  save (set_isActive false (set_status CANCELLED a)).

Definition enable (a : Alert) : JS.completion Alert :=
  save (set_isActive true (set_status ACTIVE a)).

Definition disable (a : Alert) : JS.completion Alert :=
  save (set_isActive false (set_status DISABLED a)).

(** ** Two callers on one stored alert

    The stored document of one alert, and two callers that each hold a
    document hydrated from it and call [trigger()] on their own copy.  A
    normal completion of [save()] writes the caller's document back. *)

Module Scan.

Definition committed {A : Type} (r : JS.completion A) : bool :=
  match r with
  | JS.Normal _ => true
  | JS.Throw _ => false
  end.

Definition written (db : Alert) (r : JS.completion Alert) : Alert :=
  match r with
  | JS.Normal a => a
  | JS.Throw _ => db
  end.

Record Attempts : Type := {
  first : JS.completion Alert;
  second : JS.completion Alert;
  stored : Alert
}.

(** Both callers read the stored alert before either of them commits:
    the two attempts are made on the same eligibility window. *)
Definition overlapping (now1 now2 : Z) (currentPrice : JS.num)
    (volume : option JS.num) (db : Alert) : Attempts :=
  let doc1 := db in
  let doc2 := db in
  let r1 := trigger now1 currentPrice volume doc1 in
  let db1 := written db r1 in
  let r2 := trigger now2 currentPrice volume doc2 in
  {| first := r1; second := r2; stored := written db1 r2 |}.

End Scan.

(** ** The static [checkStockAlerts]

    The collection is the list of the stored alerts; the position of a
    document is its identity.  A query hydrates one document per match, and
    a [save()] that resolves writes the document back at its position. *)

Definition set_stock (v : StockRef) (a : Alert) : Alert :=
  {| stock := v; stockSymbol := stockSymbol a; condition := condition a;
     status := status a; isActive := isActive a;
     notification := notification a; triggeredAt := triggeredAt a;
     triggerCount := triggerCount a; triggerData := triggerData a;
     endDate := endDate a; expiresAt := expiresAt a;
     userPreferences := userPreferences a; version := version a |}.

(** A document whose [stock] path is not populated: the path holds the
    stored reference, an [ObjectId]. *)
Definition unpopulated (a : Alert) : Alert :=
  match stock a with
  | StockDoc _ => set_stock StockId a
  | StockNull | StockId => a
  end.

(** The filter of [checkStockAlerts]:
    [{ stockSymbol, isActive: true, status: 'ACTIVE',
       $or: [{ expiresAt: null }, { expiresAt: { $gt: new Date() } }] }] *)
Definition stock_query (now : Z) (symbol : string) (a : Alert) : bool :=
  String.eqb (stockSymbol a) symbol
  && isActive a
  && Status_eqb (status a) ACTIVE
  && match expiresAt a with
     | None => true
     | Some e => now <? e
     end.

(** [this.find(query).populate('user', ...)]: the matching documents with
    their positions, [stock] left unpopulated. *)
Fixpoint find_from (i : nat) (query : Alert -> bool) (db : list Alert)
  : list (nat * Alert) :=
  match db with
  | [] => []
  | a :: rest =>
      if query a then (i, unpopulated a) :: find_from (S i) query rest
      else find_from (S i) query rest
  end.

(** The write of a resolved [save()]. *)
Fixpoint store (i : nat) (doc : Alert) (db : list Alert) : list Alert :=
  match db, i with
  | [], _ => []
  | _ :: rest, O => doc :: rest
  | a :: rest, S j => a :: store j doc rest
  end.

(** The [for (const alert of alerts)] loop; the state is the collection
    and the array [triggeredAlerts]. *)
Fixpoint check_loop (now : Z) (currentPrice : JS.num)
    (volume : option JS.num) (alerts : list (nat * Alert))
    (db : list Alert) (triggeredAlerts : list Alert)
  : JS.completion (list Alert * list Alert) :=
  match alerts with
  | [] => JS.Normal (triggeredAlerts, db)
  | (i, alert) :: rest =>
      let shouldTrigger := checkConditions alert currentPrice volume in
      if JS.truthy shouldTrigger && canTriggerAgain now alert then
        (await saved <- trigger now currentPrice volume alert ;;
         check_loop now currentPrice volume rest (store i saved db)
                    (triggeredAlerts ++ [saved]))
      else check_loop now currentPrice volume rest db triggeredAlerts
  end.

Definition checkStockAlerts (now : Z) (stock : Stock.t)
    (currentPrice : JS.num) (volume : option JS.num) (db : list Alert)
  : JS.completion (list Alert * list Alert) :=
  let alerts := find_from 0 (stock_query now (Stock.symbol stock)) db in
  check_loop now currentPrice volume alerts db [].

(** ** Sample data *)

Module Sample.

Definition aapl : Stock.t :=
  {| Stock.symbol := "AAPL";
     Stock.currentPrice :=
       Some {| Stock.price := JS.Fin 150; Stock.change := Some (JS.Fin 2) |};
     Stock.dailyData := {| Stock.previousClose := Some (JS.Fin 148) |} |}.

(** A stock whose previous close is zero. *)
Definition unlisted : Stock.t :=
  {| Stock.symbol := "NEWCO";
     Stock.currentPrice :=
       Some {| Stock.price := JS.Fin 150; Stock.change := Some (JS.Fin 0) |};
     Stock.dailyData := {| Stock.previousClose := Some (JS.Fin 0) |} |}.

Definition closed_at_100 : Stock.t :=
  {| Stock.symbol := "ACME";
     Stock.currentPrice :=
       Some {| Stock.price := JS.Fin 94; Stock.change := None |};
     Stock.dailyData := {| Stock.previousClose := Some (JS.Fin 100) |} |}.

(** A freshly created alert: the schema defaults, on [PRICE_ABOVE 150]. *)
Definition fresh : Alert :=
  {| stock := StockDoc aapl; stockSymbol := "AAPL";
     condition := {| type := PRICE_ABOVE; targetValue := JS.Fin 150 |};
     status := ACTIVE; isActive := true;
     notification := {| lastSent := None; sendCount := 0; maxSends := 1;
                        cooldownMinutes := 0 |};
     triggeredAt := None; triggerCount := 0;
     triggerData := emptyTriggerData;
     endDate := None; expiresAt := None;
     userPreferences := {| snoozeUntil := None; isMuted := false |};
     version := 1 |}.

Definition with_condition (t : ConditionType) (target : Q) (s : Stock.t)
    (a : Alert) : Alert :=
  {| stock := StockDoc s; stockSymbol := stockSymbol a;
     condition := {| type := t; targetValue := JS.Fin target |};
     status := status a; isActive := isActive a;
     notification := notification a; triggeredAt := triggeredAt a;
     triggerCount := triggerCount a; triggerData := triggerData a;
     endDate := endDate a; expiresAt := expiresAt a;
     userPreferences := userPreferences a; version := version a |}.

(** An alert that may fire three times, one hour apart, and last fired at
    instant [1000000]. *)
Definition hourly : Alert :=
  set_notification
    {| lastSent := Some 1000000; sendCount := 1; maxSends := 3;
       cooldownMinutes := 60 |} fresh.

Definition muted : Alert :=
  set_userPreferences {| snoozeUntil := None; isMuted := true |} fresh.

Definition snoozed_until (t : Z) : Alert :=
  set_userPreferences {| snoozeUntil := Some t; isMuted := false |} fresh.

Definition expiring_at (t : Z) : Alert :=
  set_expiresAt (Some t) fresh.

Definition cancelled : Alert :=
  set_isActive false (set_status CANCELLED fresh).

(** Two callers trigger the fresh alert at price [151], at instants
    [1000] and [1001], both from the state stored before either
    commit. *)
Definition two_callers : Scan.Attempts :=
  Scan.overlapping 1000 1001 (JS.Fin 151) None fresh.

Definition percent_up_5 : Alert :=
  with_condition PRICE_PERCENT_UP 5 unlisted fresh.

Definition volume_below_1000 : Alert :=
  with_condition VOLUME_BELOW 1000 aapl fresh.

Definition volume_above_0 : Alert :=
  with_condition VOLUME_ABOVE 0 aapl fresh.

End Sample.

(** ** The same alert under another condition type *)

Definition set_condition (v : Condition) (a : Alert) : Alert :=
  {| stock := stock a; stockSymbol := stockSymbol a; condition := v;
     status := status a; isActive := isActive a;
     notification := notification a; triggeredAt := triggeredAt a;
     triggerCount := triggerCount a; triggerData := triggerData a;
     endDate := endDate a; expiresAt := expiresAt a;
     userPreferences := userPreferences a; version := version a |}.

(** [alert.condition.type = t], the target kept. *)
Definition retyped (t : ConditionType) (a : Alert) : Alert :=
  set_condition {| type := t; targetValue := targetValue (condition a) |} a.

(** ** More sample data *)

Module Fixture.

Definition set_endDate (v : option Z) (a : Alert) : Alert :=
  {| stock := stock a; stockSymbol := stockSymbol a; condition := condition a;
     status := status a; isActive := isActive a;
     notification := notification a; triggeredAt := triggeredAt a;
     triggerCount := triggerCount a; triggerData := triggerData a;
     endDate := v; expiresAt := expiresAt a;
     userPreferences := userPreferences a; version := version a |}.

(** A new alert with an end date, before its first save. *)
Definition ending_at (e : Z) : Alert := set_endDate (Some e) Sample.fresh.

(** An alert that expires at [1000] and whose end date was since moved to
    [9000]. *)
Definition end_moved : Alert :=
  set_endDate (Some 9000) (Sample.expiring_at 1000).

(** An alert that has sent once and whose [maxSends] was set to [1.5]. *)
Definition fractional_quota : Alert :=
  set_notification
    {| lastSent := Some 1000; sendCount := 1; maxSends := 3 # 2;
       cooldownMinutes := 0 |} Sample.fresh.

(** An alert that has used its single send. *)
Definition exhausted : Alert :=
  set_notification
    {| lastSent := Some 1000; sendCount := 1; maxSends := 1;
       cooldownMinutes := 0 |} Sample.fresh.


(** A collection of three alerts on two symbols. *)
Definition collection : list Alert :=
  [ Sample.fresh;
    set_stockSymbol "MSFT" Sample.fresh;
    Sample.expiring_at 1000 ].

(** Candidates as a query that populates [stock] would return them. *)
Definition populated_candidates : list (nat * Alert) :=
  [ (0%nat, Sample.fresh); (2%nat, Sample.cancelled) ].

End Fixture.

(** ** Predicates used in the statements *)

(** [a'] agrees with [a] on every field but [stockSymbol] and [expiresAt],
    the two fields that the hooks of [save()] may write. *)
Definition same_but_hooks (a a' : Alert) : Prop :=
  stock a' = stock a /\ condition a' = condition a /\
  status a' = status a /\ isActive a' = isActive a /\
  notification a' = notification a /\ triggeredAt a' = triggeredAt a /\
  triggerCount a' = triggerCount a /\ triggerData a' = triggerData a /\
  endDate a' = endDate a /\ userPreferences a' = userPreferences a /\
  version a' = version a.

(** [q] is the whole number [n], not below the schema's minimum and small
    enough for [n + 1] to be exact in binary64. *)
Definition is_count (q : Q) (n : Z) : Prop :=
  (q == inject_Z n)%Q /\ 0 <= n < 9007199254740992.

(** The arguments of [trigger()] are numbers; the volume may be [null]. *)
Definition numeric (p : JS.num) (v : option JS.num) : Prop :=
  casts_to_Number (Some p) = true /\ casts_to_Number v = true.

(** The test of the loop of [checkStockAlerts] on one candidate:
    [shouldTrigger && alert.canTriggerAgain]. *)
Definition fires (now : Z) (p : JS.num) (v : option JS.num)
    (c : nat * Alert) : bool :=
  JS.truthy (checkConditions (snd c) p v) && canTriggerAgain now (snd c).

(** The writes of the loop: each triggered document at the position of
    its candidate, in order. *)
Definition stored_all (fired : list (nat * Alert)) (out : list Alert)
    (db : list Alert) : list Alert :=
  fold_left (fun d ca => store (fst (fst ca)) (snd ca) d)
            (combine fired out) db.

(** The stock of the alert is populated and carries a current price, so
    that [checkConditions] gets past its first guard. *)
Definition populated (a : Alert) (s : Stock.t) : Prop :=
  stock a = StockDoc s /\ Stock.currentPrice s <> None.

(** * Properties *)

(** ** What [save()] keeps *)

Lemma pre_save_stockSymbol_frame (a : Alert) :
  same_but_hooks a (pre_save_stockSymbol a) /\
  expiresAt (pre_save_stockSymbol a) = expiresAt a.
Proof.
  unfold pre_save_stockSymbol, same_but_hooks.
  destruct (stock_symbol a) as [sym|]; [destruct (String.eqb _ _)|];
    cbn; intuition reflexivity.
Qed.

Lemma pre_save_expiresAt_frame (a : Alert) :
  same_but_hooks a (pre_save_expiresAt a).
Proof.
  unfold pre_save_expiresAt, same_but_hooks.
  destruct (endDate a) eqn:Hend, (expiresAt a) eqn:Hexp; cbn;
    intuition congruence.
Qed.

Lemma same_but_hooks_trans (a b c : Alert) :
  same_but_hooks a b -> same_but_hooks b c -> same_but_hooks a c.
Proof.
  unfold same_but_hooks; intros H1 H2.
  decompose [and] H1; decompose [and] H2; clear H1 H2.
  repeat split; congruence.
Qed.

Lemma save_resolves (a : Alert) :
  exists a', save a = JS.Normal a' /\ same_but_hooks a a'.
Proof.
  unfold save; eexists; split; [reflexivity|].
  eapply same_but_hooks_trans.
  - apply pre_save_stockSymbol_frame.
  - apply pre_save_expiresAt_frame.
Qed.

(** An expiry date, once set, is kept by [save()]. *)
Lemma save_keeps_expiresAt (a a' : Alert) (e : Z) :
  save a = JS.Normal a' -> expiresAt a = Some e -> expiresAt a' = Some e.
Proof.
  unfold save; intros H He; injection H as <-.
  destruct (pre_save_stockSymbol_frame a) as [_ Hx].
  unfold pre_save_expiresAt; rewrite Hx, He.
  destruct (endDate _); cbn; congruence.
Qed.

(** ** The lifecycle methods, field by field *)

(** Runs the [save()] that ends a method: names the saved document [a'],
    settles the completion and keeps what the hooks preserve as [Hf]. *)
Ltac run_save a' Hf :=
  let Hs := fresh "Hs" in
  match goal with
  | |- context [save ?x] => destruct (save_resolves x) as (a' & Hs & Hf)
  end;
  exists a'; split; [exact Hs|].

Lemma Qlt_bool_iff (x y : Q) : JS.Qlt_bool x y = true <-> (x < y)%Q.
Proof.
  unfold JS.Qlt_bool; rewrite negb_true_iff.
  destruct (Qle_bool y x) eqn:E.
  - apply Qle_bool_iff in E. split; [discriminate|].
    intros H; exfalso; exact (Qlt_not_le _ _ H E).
  - split; [intros _|reflexivity].
    apply Qnot_le_lt; intros H; apply Qle_bool_iff in H; congruence.
Qed.

Lemma Qle_bool_false_iff (x y : Q) : Qle_bool x y = false <-> (y < x)%Q.
Proof.
  rewrite <- Qlt_bool_iff; unfold JS.Qlt_bool.
  destruct (Qle_bool x y); cbn; split; congruence.
Qed.

Lemma trigger_fields_spec (now : Z) (p : JS.num) (v : option JS.num)
    (a : Alert) :
  let t := trigger_fields now p v a in
  status t = TRIGGERED /\ triggeredAt t = Some now /\
  triggerCount t = triggerCount a + 1 /\
  lastSent (notification t) = Some now /\
  sendCount (notification t) = (sendCount (notification a) + 1)%Q /\
  maxSends (notification t) = maxSends (notification a) /\
  isActive t =
    (if Qle_bool (maxSends (notification a))
                 (sendCount (notification a) + 1)
     then false else isActive a) /\
  priceAtTrigger (triggerData t) = Some p /\
  volumeAtTrigger (triggerData t) = v /\
  userPreferences t = userPreferences a /\
  version t = version a.
Proof.
  unfold trigger_fields; cbn.
  destruct (Qle_bool (maxSends (notification a))
                     (sendCount (notification a) + 1));
    cbn; repeat split; reflexivity.
Qed.

(** What a committed [trigger] has written; [version] is neither read nor
    written. *)
Lemma trigger_result (now : Z) (p : JS.num) (v : option JS.num)
    (a a' : Alert) :
  trigger now p v a = JS.Normal a' ->
  numeric p v /\
  status a' = TRIGGERED /\ triggeredAt a' = Some now /\
  triggerCount a' = triggerCount a + 1 /\
  lastSent (notification a') = Some now /\
  sendCount (notification a') = (sendCount (notification a) + 1)%Q /\
  maxSends (notification a') = maxSends (notification a) /\
  isActive a' =
    (if Qle_bool (maxSends (notification a))
                 (sendCount (notification a) + 1)
     then false else isActive a) /\
  userPreferences a' = userPreferences a /\
  version a' = version a.
Proof.
  unfold trigger, save_assigned, numeric.
  destruct (casts_to_Number (Some p)); [|discriminate].
  destruct (casts_to_Number v); [|discriminate].
  cbn [andb].
  destruct (save_resolves (trigger_fields now p v a)) as (b & Hs & Hf).
  rewrite Hs; cbn [JS.bind]. intros H; injection H as <-.
  split; [split; reflexivity|].
  pose proof (trigger_fields_spec now p v a) as T; cbn zeta in T.
  unfold same_but_hooks in Hf.
  decompose [and] T; decompose [and] Hf; clear T Hf.
  repeat split; congruence.
Qed.

(** With numeric arguments [trigger] has no failing path: it commits from
    every stored alert. *)
Lemma trigger_commits (now : Z) (p : JS.num) (v : option JS.num)
    (a : Alert) :
  numeric p v -> exists a', trigger now p v a = JS.Normal a'.
Proof.
  intros [Hp Hv]; unfold trigger, save_assigned.
  rewrite Hp, Hv; cbn [andb].
  destruct (save_resolves (trigger_fields now p v a)) as (b & Hs & _).
  rewrite Hs; cbn [JS.bind]. exists b; reflexivity.
Qed.

(** A [NaN] argument fails its cast: nothing is committed. *)
Lemma trigger_rejects_NaN (now : Z) (p : JS.num) (v : option JS.num)
    (a : Alert) :
  p = JS.NaN \/ v = Some JS.NaN ->
  trigger now p v a = JS.Throw "ValidationError".
Proof.
  intros [-> | ->]; unfold trigger, save_assigned; cbn.
  - reflexivity.
  - destruct p; reflexivity.
Qed.

Lemma reset_spec (a : Alert) :
  exists a', reset a = JS.Normal a' /\
    status a' = ACTIVE /\ triggeredAt a' = None /\
    triggerData a' = emptyTriggerData /\
    sendCount (notification a') = 0%Q /\
    lastSent (notification a') = None /\
    maxSends (notification a') = maxSends (notification a) /\
    cooldownMinutes (notification a') = cooldownMinutes (notification a) /\
    triggerCount a' = triggerCount a /\
    isActive a' = isActive a /\
    userPreferences a' = userPreferences a.
Proof.
  unfold reset.
  run_save a' Hf.
  unfold same_but_hooks in Hf; cbn in Hf.
  decompose [and] Hf; clear Hf.
  repeat split; try assumption;
    match goal with H : notification a' = _ |- _ => rewrite H end;
    reflexivity.
Qed.

Lemma enable_spec (a : Alert) :
  exists a', enable a = JS.Normal a' /\ status a' = ACTIVE /\
    isActive a' = true.
Proof.
  unfold enable.
  run_save a' Hf.
  unfold same_but_hooks in Hf; cbn in Hf; tauto.
Qed.

Lemma disable_spec (a : Alert) :
  exists a', disable a = JS.Normal a' /\ status a' = DISABLED /\
    isActive a' = false.
Proof.
  unfold disable.
  run_save a' Hf.
  unfold same_but_hooks in Hf; cbn in Hf; tauto.
Qed.

Lemma cancel_spec (a : Alert) :
  exists a', cancel a = JS.Normal a' /\ status a' = CANCELLED /\
    isActive a' = false.
Proof.
  unfold cancel.
  run_save a' Hf.
  unfold same_but_hooks in Hf; cbn in Hf; tauto.
Qed.

Lemma snooze_spec (now minutes : Z) (a : Alert) :
  casts_to_Date (now + minutes * 60 * 1000) = true ->
  exists a', snooze now minutes a = JS.Normal a' /\
    snoozeUntil (userPreferences a') = Some (now + minutes * 60 * 1000) /\
    status a' = status a.
Proof.
  intros Hc; unfold snooze, save_assigned; cbv zeta; rewrite Hc.
  run_save a' Hf.
  unfold same_but_hooks in Hf; cbn in Hf.
  decompose [and] Hf; clear Hf.
  split; [|assumption].
  match goal with H : userPreferences a' = _ |- _ => rewrite H end.
  reflexivity.
Qed.

(** ** The gate, rule by rule *)

Lemma isExpired_false_iff (now : Z) (a : Alert) :
  isExpired now a = false <->
  expiresAt a = None \/ exists e, expiresAt a = Some e /\ now <= e.
Proof.
  unfold isExpired; destruct (expiresAt a) as [e|].
  - rewrite Z.ltb_ge; split.
    + intros H; right; exists e; split; [reflexivity|exact H].
    + intros [H|(e' & H & Hle)]; [discriminate|]. congruence.
  - split; [left; reflexivity|reflexivity].
Qed.

Lemma snoozed_true_iff (now : Z) (a : Alert) :
  snoozed now a = true <->
  exists s, snoozeUntil (userPreferences a) = Some s /\ now < s.
Proof.
  unfold snoozed; destruct (snoozeUntil (userPreferences a)) as [s|].
  - rewrite Z.ltb_lt; split.
    + intros H; exists s; split; [reflexivity|exact H].
    + intros (s' & H & Hlt); congruence.
  - split; [discriminate|intros (s & H & _); discriminate].
Qed.

Lemma gate_closed_when_snoozed (now : Z) (a : Alert) :
  snoozed now a = true -> canTriggerAgain now a = false.
Proof.
  intros H; unfold canTriggerAgain; rewrite H.
  destruct (negb _); [reflexivity|].
  destruct (isExpired now a); [reflexivity|].
  destruct (Qle_bool _ _); reflexivity.
Qed.

(** The gate never reads [isMuted]. *)
Lemma gate_ignores_isMuted (now : Z) (m : bool) (a : Alert) :
  canTriggerAgain now (set_userPreferences
                         (set_isMuted m (userPreferences a)) a)
  = canTriggerAgain now a.
Proof. reflexivity. Qed.


(** ** The evaluator, case by case *)

Lemma sub_NaN_r (x : JS.num) : JS.sub x JS.NaN = JS.NaN.
Proof. destruct x; reflexivity. Qed.

Lemma sub_NaN_l (x : JS.num) : JS.sub JS.NaN x = JS.NaN.
Proof. destruct x; reflexivity. Qed.

(** Without a populated stock nothing is met. *)
Lemma unpopulated_not_met (a : Alert) (p : JS.num) (v : option JS.num) :
  stock a = StockNull \/ stock a = StockId ->
  checkConditions a p v = JS.VBool false.
Proof.
  unfold checkConditions; intros [H|H]; rewrite H; reflexivity.
Qed.

(** A percentage condition on a stock without [previousClose] compares
    [NaN] with the target. *)
Lemma percent_without_previousClose (a : Alert) (s : Stock.t)
    (p : JS.num) (v : option JS.num) :
  populated a s ->
  Stock.previousClose (Stock.dailyData s) = None ->
  type (condition a) = PRICE_PERCENT_UP \/
  type (condition a) = PRICE_PERCENT_DOWN ->
  checkConditions a p v = JS.VBool false.
Proof.
  intros [Hs Hcp] Hprev Hty; unfold checkConditions.
  rewrite Hs, Hprev.
  destruct (Stock.currentPrice s); [|congruence].
  destruct Hty as [-> | ->]; cbn [JS.toNumber];
    rewrite ?sub_NaN_r, ?sub_NaN_l; reflexivity.
Qed.

(** [PRICE_ABOVE] on finite numbers is the inclusive comparison. *)
Lemma price_above_inclusive (a : Alert) (s : Stock.t) (p t : Q)
    (v : option JS.num) :
  populated a s ->
  type (condition a) = PRICE_ABOVE ->
  targetValue (condition a) = JS.Fin t ->
  (checkConditions a (JS.Fin p) v = JS.VBool true <-> (t <= p)%Q).
Proof.
  intros [Hs Hcp] Hty Htg; unfold checkConditions.
  rewrite Hs, Hty, Htg.
  destruct (Stock.currentPrice s); [|congruence].
  cbn [JS.ge]. rewrite <- Qle_bool_iff.
  split; [intros H; injection H; trivial | intros ->; reflexivity].
Qed.

(** [VOLUME_ABOVE] / [VOLUME_BELOW] on a finite volume other than zero are
    the inclusive comparisons. *)
Lemma volume_nonzero_inclusive (a : Alert) (s : Stock.t) (p : JS.num)
    (q t : Q) :
  populated a s ->
  targetValue (condition a) = JS.Fin t ->
  ~ (q == 0)%Q ->
  (type (condition a) = VOLUME_ABOVE ->
   (checkConditions a p (Some (JS.Fin q)) = JS.VBool true <-> (t <= q)%Q)) /\
  (type (condition a) = VOLUME_BELOW ->
   (checkConditions a p (Some (JS.Fin q)) = JS.VBool true <-> (q <= t)%Q)).
Proof.
  intros [Hs Hcp] Htg Hq.
  assert (Hz : JS.is_zero q = false).
  { unfold JS.is_zero. destruct (Qeq_bool q 0) eqn:E; [|reflexivity].
    apply Qeq_bool_iff in E; contradiction. }
  split; intros Hty; unfold checkConditions;
    rewrite Hs, Hty, Htg;
    (destruct (Stock.currentPrice s); [|congruence]);
    cbn [JS.and_then JS.num_truthy]; rewrite Hz; cbn [negb JS.le JS.ge];
    rewrite <- Qle_bool_iff;
    (split; [intros H; injection H; trivial | intros ->; reflexivity]).
Qed.

(** A volume of [0] is falsy: the [&&] returns it without comparing. *)
Lemma volume_zero_returned (a : Alert) (s : Stock.t) (p : JS.num) :
  populated a s ->
  type (condition a) = VOLUME_ABOVE \/ type (condition a) = VOLUME_BELOW ->
  checkConditions a p (Some (JS.Fin 0)) = JS.VNum (JS.Fin 0).
Proof.
  intros [Hs Hcp] Hty; unfold checkConditions; rewrite Hs.
  destruct (Stock.currentPrice s); [|congruence].
  destruct Hty as [-> | ->]; reflexivity.
Qed.

(** Scenario A: [PRICE_ABOVE 150] at price [150]. *)
Example scenario_A :
  checkConditions Sample.fresh (JS.Fin 150) None = JS.VBool true.
Proof. reflexivity. Qed.

(** Scenario B: [PRICE_PERCENT_DOWN 5], previous close [100], price [94]:
    a fall of 6 percent. *)
Example scenario_B :
  checkConditions
    (Sample.with_condition PRICE_PERCENT_DOWN 5 Sample.closed_at_100
                           Sample.fresh)
    (JS.Fin 94) None = JS.VBool true.
Proof. reflexivity. Qed.

(** Scenario D: a cooldown of 60 minutes, 59 and then 61 minutes after
    the last send. *)
Example scenario_D :
  canTriggerAgain (1000000 + 59 * 60000) Sample.hourly = false /\
  canTriggerAgain (1000000 + 61 * 60000) Sample.hourly = true.
Proof. split; reflexivity. Qed.

(** ** Claims about [trigger] *)

(** C1, as stated, fails: two callers that read the same stored alert and
    both call [trigger()] both complete normally; neither attempt ends in
    [ConcurrentModificationError]. *)
Lemma overlapping_triggers_both_commit :
  Scan.committed (Scan.first Sample.two_callers) = true /\
  Scan.committed (Scan.second Sample.two_callers) = true /\
  Scan.first Sample.two_callers <> JS.Throw "ConcurrentModificationError" /\
  Scan.second Sample.two_callers <> JS.Throw "ConcurrentModificationError".
Proof.
  repeat split; try reflexivity; discriminate.
Qed.

(** C1, amended: [trigger()] makes no version check.  When two callers
    read the same stored alert and both call [trigger()] with a price and
    a volume that are numbers, both attempts commit: each writes the
    commit fields from the state it read, [version] is left as it was,
    and the stored alert is the document of the later writer. *)
Theorem trigger_makes_no_version_check (now1 now2 : Z) (p : JS.num)
    (v : option JS.num) (db : Alert) :
  numeric p v ->
  exists a1 a2,
    Scan.first (Scan.overlapping now1 now2 p v db) = JS.Normal a1 /\
    Scan.second (Scan.overlapping now1 now2 p v db) = JS.Normal a2 /\
    Scan.stored (Scan.overlapping now1 now2 p v db) = a2 /\
    status a1 = TRIGGERED /\ status a2 = TRIGGERED /\
    triggeredAt a1 = Some now1 /\ triggeredAt a2 = Some now2 /\
    triggerCount a1 = triggerCount db + 1 /\
    triggerCount a2 = triggerCount db + 1 /\
    version a1 = version db /\ version a2 = version db.
Proof.
  intros Hnum.
  destruct (trigger_commits now1 p v db Hnum) as (a1 & E1).
  destruct (trigger_commits now2 p v db Hnum) as (a2 & E2).
  pose proof (trigger_result now1 p v db a1 E1) as T1.
  pose proof (trigger_result now2 p v db a2 E2) as T2.
  exists a1, a2; unfold Scan.overlapping;
    cbn [Scan.first Scan.second Scan.stored].
  rewrite E1, E2; cbn [Scan.written].
  decompose [and] T1; decompose [and] T2; clear T1 T2.
  repeat split; assumption.
Qed.

Lemma trigger_makes_no_version_check_witness :
  exists a1 a2,
    Scan.first Sample.two_callers = JS.Normal a1 /\
    Scan.second Sample.two_callers = JS.Normal a2 /\
    triggeredAt a1 = Some 1000 /\ triggeredAt a2 = Some 1001 /\
    version a1 = 1 /\ version a2 = 1.
Proof.
  destruct (trigger_makes_no_version_check 1000 1001 (JS.Fin 151) None
              Sample.fresh)
    as (a1 & a2 & E1 & E2 & _ & _ & _ & Ht1 & Ht2 & _ & _ & Hv1 & Hv2).
  - split; reflexivity.
  - exists a1, a2. repeat split; assumption.
Defined.

(** C2, as stated, fails: [maxSends] is a [Number] and may be fractional.
    With [sendCount = 1 < maxSends = 3/2] the trigger commits
    [sendCount = 2], above [maxSends], and writes [isActive = false]
    although the new [sendCount] differs from [maxSends]. *)
Lemma fractional_quota_is_overrun :
  (sendCount (notification Fixture.fractional_quota)
   < maxSends (notification Fixture.fractional_quota))%Q /\
  exists a',
    trigger 2000 (JS.Fin 151) None Fixture.fractional_quota = JS.Normal a' /\
    (sendCount (notification a') == 2)%Q /\
    ~ (sendCount (notification a') <= maxSends (notification a'))%Q /\
    isActive a' = false /\
    ~ (sendCount (notification a') == maxSends (notification a'))%Q.
Proof.
  split; [reflexivity|].
  eexists; split; [reflexivity|].
  cbn; repeat split; try discriminate.
  intros H; apply H; reflexivity.
Qed.

(** C2, amended: on an alert whose [sendCount] is a whole number below
    [maxSends], [trigger()] with a numeric price and volume completes, and
    a completed [trigger()] has added exactly 1 to [sendCount] and to
    [triggerCount] and, in the same commit, has written [isActive = false]
    exactly when the new [sendCount] is at least [maxSends] (otherwise
    [isActive] is left as it was).  When [maxSends] is a whole number too,
    [sendCount <= maxSends] still holds and "at least" is "equal". *)
Theorem trigger_counts_and_quota (now : Z) (p : JS.num)
    (v : option JS.num) (a : Alert) (n : Z) :
  is_count (sendCount (notification a)) n ->
  (sendCount (notification a) < maxSends (notification a))%Q ->
  (numeric p v -> exists a', trigger now p v a = JS.Normal a') /\
  forall a', trigger now p v a = JS.Normal a' ->
    (sendCount (notification a') == inject_Z (n + 1))%Q /\
    triggerCount a' = triggerCount a + 1 /\
    maxSends (notification a') = maxSends (notification a) /\
    ((maxSends (notification a') <= sendCount (notification a'))%Q ->
     isActive a' = false) /\
    ((sendCount (notification a') < maxSends (notification a'))%Q ->
     isActive a' = isActive a) /\
    forall m : Z,
      (maxSends (notification a) == inject_Z m)%Q ->
      (sendCount (notification a') <= maxSends (notification a'))%Q /\
      ((maxSends (notification a') <= sendCount (notification a'))%Q <->
       (sendCount (notification a') == maxSends (notification a'))%Q).
Proof.
  intros [Hn Hrange] Hq.
  split; [apply trigger_commits|].
  intros a' E.
  destruct (trigger_result now p v a a' E)
    as (_ & _ & _ & Htc & _ & Hsc & Hms & Hact & _).
  assert (Hsc' : (sendCount (notification a') == inject_Z (n + 1))%Q).
  { rewrite Hsc, Hn, inject_Z_plus. reflexivity. }
  split; [exact Hsc'|]. split; [exact Htc|]. split; [exact Hms|].
  split; [|split].
  - intros Hle. rewrite Hsc, Hms in Hle.
    apply Qle_bool_iff in Hle. rewrite Hle in Hact. exact Hact.
  - intros Hlt. rewrite Hsc, Hms in Hlt.
    apply Qle_bool_false_iff in Hlt. rewrite Hlt in Hact. exact Hact.
  - intros m Hm.
    assert (Hnm : n < m).
    { rewrite Zlt_Qlt, <- Hn, <- Hm. exact Hq. }
    rewrite Hms, Hm, Hsc'.
    split; [|split].
    + rewrite <- Zle_Qle. lia.
    + rewrite <- Zle_Qle. intros Hle.
      assert (m = n + 1) by lia. subst m. reflexivity.
    + intros Heq. rewrite Heq. apply Qle_refl.
Qed.

Lemma trigger_counts_and_quota_witness :
  exists a', trigger 5000000 (JS.Fin 151) None Sample.hourly = JS.Normal a' /\
    (sendCount (notification a') == 2)%Q /\ triggerCount a' = 1 /\
    isActive a' = true /\
    (sendCount (notification a') <= maxSends (notification a'))%Q.
Proof.
  destruct (trigger_counts_and_quota 5000000 (JS.Fin 151) None
              Sample.hourly 1) as (Hrun & Hres).
  - split; [reflexivity | lia].
  - reflexivity.
  - destruct Hrun as (a' & E); [split; reflexivity|].
    destruct (Hres a' E) as (Hsc & Htc & Hms & _ & Hkeep & Hwhole).
    exists a'; split; [exact E|].
    split; [exact Hsc|]. split; [exact Htc|].
    split.
    + apply Hkeep. rewrite Hsc, Hms. reflexivity.
    + apply (Hwhole 3). reflexivity.
Defined.

(** ** Claims about the evaluator *)

(** C3 at its failing input: [PRICE_PERCENT_UP] with target [5] on a stock
    whose [previousClose] is [0], at price [150].  The division yields
    [Infinity], the product is [Infinity], and [Infinity >= 5] is [true]:
    the condition is reported as met. *)
Theorem percent_up_on_zero_previousClose_is_met :
  Stock.previousClose (Stock.dailyData Sample.unlisted) = Some (JS.Fin 0) /\
  JS.div (JS.sub (JS.Fin 150) (JS.Fin 0)) (JS.Fin 0) = JS.PosInf /\
  checkConditions Sample.percent_up_5 (JS.Fin 150) None = JS.VBool true.
Proof. repeat split. Qed.

(** C9 at its failing input: [VOLUME_BELOW] with target [1000] and a
    volume of [0], which is present and at most the target.  The evaluator
    returns the falsy volume itself, so the condition is not met; the same
    holds for [VOLUME_ABOVE] with target [0]. *)
Theorem volume_zero_is_not_met :
  JS.le (JS.Fin 0) (JS.Fin 1000) = true /\
  checkConditions Sample.volume_below_1000 (JS.Fin 150) (Some (JS.Fin 0))
  = JS.VNum (JS.Fin 0) /\
  JS.truthy
    (checkConditions Sample.volume_below_1000 (JS.Fin 150) (Some (JS.Fin 0)))
  = false /\
  JS.ge (JS.Fin 0) (JS.Fin 0) = true /\
  JS.truthy
    (checkConditions Sample.volume_above_0 (JS.Fin 150) (Some (JS.Fin 0)))
  = false.
Proof. repeat split. Qed.

(** ** Claims about the state machine *)

(** C4 at its failing input: a fresh alert with [maxSends = 1] is
    triggered once, which deactivates it, and then reset.  After
    [reset()] the status is [ACTIVE] and [sendCount] is [0], but [isActive]
    is still [false]. *)
Theorem reset_leaves_alert_inactive :
  exists a1 a2,
    trigger 1000 (JS.Fin 151) None Sample.fresh = JS.Normal a1 /\
    status a1 = TRIGGERED /\ isActive a1 = false /\
    reset a1 = JS.Normal a2 /\
    status a2 = ACTIVE /\ sendCount (notification a2) = 0%Q /\
    lastSent (notification a2) = None /\ triggeredAt a2 = None /\
    isActive a2 = false.
Proof.
  do 2 eexists.
  split; [reflexivity|]. split; [reflexivity|]. split; [reflexivity|].
  split; [reflexivity|]. repeat split.
Qed.

(** C5, as stated, fails: [enable()] on a cancelled alert completes
    normally and changes both [status] and [isActive]. *)
Lemma enable_revives_cancelled_alert :
  status Sample.cancelled = CANCELLED /\
  enable Sample.cancelled <> JS.Throw "InvalidStateError" /\
  exists a', enable Sample.cancelled = JS.Normal a' /\
    status a' = ACTIVE /\ status a' <> status Sample.cancelled /\
    isActive a' = true /\ isActive a' <> isActive Sample.cancelled.
Proof.
  split; [reflexivity|]. split; [discriminate|].
  eexists; split; [reflexivity|].
  repeat split; discriminate.
Qed.

(** C5, amended: no method checks for [CANCELLED].  On a cancelled alert
    [reset()], [enable()] and [disable()] complete normally; [reset()] and
    [enable()] set the status to [ACTIVE], [disable()] sets it to
    [DISABLED], and [enable()] / [disable()] set [isActive] to [true] /
    [false]. *)
Theorem cancelled_is_not_terminal (a : Alert) :
  status a = CANCELLED ->
  (exists a', reset a = JS.Normal a' /\ status a' = ACTIVE) /\
  (exists a', enable a = JS.Normal a' /\ status a' = ACTIVE /\
              isActive a' = true) /\
  (exists a', disable a = JS.Normal a' /\ status a' = DISABLED /\
              isActive a' = false).
Proof.
  intros _. split; [|split].
  - destruct (reset_spec a) as (a' & E & Hst & _).
    exists a'; split; assumption.
  - apply enable_spec.
  - apply disable_spec.
Qed.

Lemma cancelled_is_not_terminal_witness :
  status Sample.cancelled = CANCELLED /\
  exists a', disable Sample.cancelled = JS.Normal a' /\
    status a' = DISABLED /\ isActive a' = false.
Proof.
  split; [reflexivity|].
  apply (cancelled_is_not_terminal Sample.cancelled); reflexivity.
Defined.

(** ** Claims about the trigger gate *)




(** C7, as stated, fails: a muted alert that is otherwise eligible passes
    the gate. *)
Lemma muted_alert_passes_gate :
  isMuted (userPreferences Sample.muted) = true /\
  canTriggerAgain 1000 Sample.muted = true.
Proof. split; reflexivity. Qed.

(** C7, amended: the gate returns [false] whenever [snoozeUntil] is set
    and strictly in the future, whatever the other fields hold; [isMuted]
    is not consulted, so the gate gives the same answer for a muted and
    an unmuted alert. *)
Theorem gate_closed_while_snoozed (now : Z) (a : Alert) :
  (forall s : Z,
      snoozeUntil (userPreferences a) = Some s -> now < s ->
      canTriggerAgain now a = false) /\
  (forall m : bool,
      canTriggerAgain now
        (set_userPreferences (set_isMuted m (userPreferences a)) a)
      = canTriggerAgain now a).
Proof.
  split.
  - intros s Hs Hlt.
    apply gate_closed_when_snoozed, snoozed_true_iff.
    exists s; split; assumption.
  - intros m; apply gate_ignores_isMuted.
Qed.

Lemma gate_closed_while_snoozed_witness :
  snoozeUntil (userPreferences (Sample.snoozed_until 2000)) = Some 2000 /\
  1000 < 2000 /\
  canTriggerAgain 1000 (Sample.snoozed_until 2000) = false.
Proof.
  split; [reflexivity|]. split; [reflexivity|].
  apply (proj1 (gate_closed_while_snoozed 1000 (Sample.snoozed_until 2000))
           2000); reflexivity.
Defined.

(** C8 at its failing input: an otherwise eligible alert whose [expiresAt]
    equals [now].  [isExpired] compares with a strict [<], so the alert is
    not expired at that instant and the gate is open, whereas one
    millisecond later it is closed. *)
Theorem gate_open_at_expiry_instant :
  expiresAt (Sample.expiring_at 1000) = Some 1000 /\
  isExpired 1000 (Sample.expiring_at 1000) = false /\
  canTriggerAgain 1000 (Sample.expiring_at 1000) = true /\
  canTriggerAgain 1001 (Sample.expiring_at 1000) = false.
Proof. repeat split. Qed.

(** C10: [reset()] leaves [userPreferences.snoozeUntil] and
    [userPreferences.isMuted] as they were; the reset alert is [ACTIVE]
    with [sendCount = 0], and as long as its [snoozeUntil] is in the future
    the gate still returns [false]. *)
Theorem reset_keeps_suppression (a : Alert) :
  exists a', reset a = JS.Normal a' /\
    snoozeUntil (userPreferences a') = snoozeUntil (userPreferences a) /\
    isMuted (userPreferences a') = isMuted (userPreferences a) /\
    status a' = ACTIVE /\ sendCount (notification a') = 0%Q /\
    forall now s : Z,
      snoozeUntil (userPreferences a) = Some s -> now < s ->
      canTriggerAgain now a' = false.
Proof.
  destruct (reset_spec a)
    as (a' & E & Hst & _ & _ & Hsc & _ & _ & _ & _ & _ & Hup).
  exists a'; split; [exact E|].
  rewrite Hup. repeat split; try assumption.
  intros now s Hs Hlt.
  apply gate_closed_when_snoozed, snoozed_true_iff.
  exists s; rewrite Hup; split; assumption.
Qed.

Lemma reset_keeps_suppression_witness :
  exists a', reset (Sample.snoozed_until 2000) = JS.Normal a' /\
    status a' = ACTIVE /\ canTriggerAgain 1000 a' = false.
Proof.
  destruct (reset_keeps_suppression (Sample.snoozed_until 2000))
    as (a' & E & _ & _ & Hst & _ & Hgate).
  exists a'; split; [exact E|]. split; [exact Hst|].
  apply (Hgate 1000 2000); reflexivity.
Defined.

(** * Further properties of the model *)

(** ** The gate as a conjunction of its rules *)

(** The cooldown rule: no [lastSent], no positive cooldown, or strictly
    more than the cooldown elapsed. *)
Lemma gate_open_iff (now : Z) (a : Alert) :
  canTriggerAgain now a = true <->
  status a = ACTIVE /\
  isExpired now a = false /\
  (sendCount (notification a) < maxSends (notification a))%Q /\
  snoozed now a = false /\
  (forall sent, lastSent (notification a) = Some sent ->
                (0 < cooldownMinutes (notification a))%Q ->
                (cooldownMs a < inject_Z (now - sent))%Q).
Proof.
  unfold canTriggerAgain.
  destruct (status a) eqn:Hst; cbn [Status_eqb negb];
    try (split; [discriminate | intros (H & _); discriminate]).
  destruct (isExpired now a) eqn:Hex;
    [split; [discriminate | intros (_ & H & _); discriminate]|].
  destruct (Qle_bool (maxSends (notification a)) (sendCount (notification a)))
    eqn:Hq.
  { apply Qle_bool_iff in Hq.
    split; [discriminate | intros (_ & _ & H & _)].
    exfalso; exact (Qlt_not_le _ _ H Hq). }
  apply Qle_bool_false_iff in Hq.
  destruct (snoozed now a) eqn:Hsn;
    [split; [discriminate | intros (_ & _ & _ & H & _); discriminate]|].
  destruct (lastSent (notification a)) as [sent|] eqn:Hls.
  - destruct (JS.Qlt_bool 0 (cooldownMinutes (notification a))) eqn:Hcd.
    + apply Qlt_bool_iff in Hcd. rewrite Qlt_bool_iff. split.
      * intros H; repeat split; try assumption.
        intros sent' Heq _; injection Heq as <-; exact H.
      * intros (_ & _ & _ & _ & H); apply H; [reflexivity | assumption].
    + split; [|reflexivity].
      intros _; repeat split; try assumption.
      intros sent' _ Hpos. apply Qlt_bool_iff in Hpos. congruence.
  - split; [|reflexivity].
    intros _; repeat split; try assumption.
    intros sent' Heq; discriminate.
Qed.

Lemma isExpired_monotone (now now' : Z) (a : Alert) :
  now <= now' -> isExpired now a = true -> isExpired now' a = true.
Proof.
  unfold isExpired; destruct (expiresAt a) as [e|]; [|discriminate].
  rewrite !Z.ltb_lt; lia.
Qed.

Lemma snoozed_antitone (now now' : Z) (a : Alert) :
  now <= now' -> snoozed now a = false -> snoozed now' a = false.
Proof.
  unfold snoozed; destruct (snoozeUntil (userPreferences a)) as [s|];
    [|reflexivity].
  rewrite !Z.ltb_ge; lia.
Qed.

Lemma gate_closed_unless_ACTIVE (now : Z) (a : Alert) :
  status a <> ACTIVE -> canTriggerAgain now a = false.
Proof.
  intros H; unfold canTriggerAgain.
  destruct (status a); try reflexivity; congruence.
Qed.

(** X10: for a given alert the instants at which the gate is open form an
    interval: open at [t1] and at [t3] means open at every instant in
    between. *)
Theorem gate_open_instants_form_interval (a : Alert) (t1 t2 t3 : Z) :
  t1 <= t2 -> t2 <= t3 ->
  canTriggerAgain t1 a = true ->
  canTriggerAgain t3 a = true ->
  canTriggerAgain t2 a = true.
Proof.
  intros H12 H23 H1 H3.
  apply gate_open_iff in H1; destruct H1 as (Hst & _ & Hq & Hsn1 & Hcd1).
  apply gate_open_iff in H3; destruct H3 as (_ & Hex3 & _ & _ & _).
  apply gate_open_iff; repeat split; try assumption.
  - destruct (isExpired t2 a) eqn:E; [|reflexivity].
    rewrite (isExpired_monotone t2 t3 a H23 E) in Hex3; discriminate.
  - apply (snoozed_antitone t1 t2 a H12 Hsn1).
  - intros sent Hls Hpos. specialize (Hcd1 sent Hls Hpos).
    apply (Qlt_le_trans _ _ _ Hcd1). rewrite <- Zle_Qle. lia.
Qed.

Lemma gate_open_instants_form_interval_witness :
  canTriggerAgain 6000000 Sample.hourly = true.
Proof.
  apply (gate_open_instants_form_interval Sample.hourly
           5000000 6000000 7000000); [lia | lia | reflexivity | reflexivity].
Defined.

(** X11: an expired alert stays shut: once [isExpired] holds, the gate
    returns [false] at that instant and at every later one. *)
Theorem gate_stays_closed_after_expiry (a : Alert) (now now' : Z) :
  isExpired now a = true -> now <= now' ->
  canTriggerAgain now' a = false.
Proof.
  intros Hex Hle.
  destruct (canTriggerAgain now' a) eqn:G; [|reflexivity].
  apply gate_open_iff in G; destruct G as (_ & Hex' & _).
  rewrite (isExpired_monotone now now' a Hle Hex) in Hex'; discriminate.
Qed.

Lemma gate_stays_closed_after_expiry_witness :
  canTriggerAgain 5000 (Sample.expiring_at 1000) = false.
Proof.
  apply (gate_stays_closed_after_expiry (Sample.expiring_at 1000) 1001 5000);
    [reflexivity | lia].
Defined.

(** X1: a triggered alert never passes the gate: after a [trigger()]
    that completed the status is [TRIGGERED], so [canTriggerAgain] is
    [false] at every instant, whatever [maxSends] and [cooldownMinutes]
    are; with a numeric price and volume [trigger()] does complete. *)
Theorem trigger_closes_gate (now : Z) (p : JS.num) (v : option JS.num)
    (a : Alert) :
  (numeric p v -> exists a', trigger now p v a = JS.Normal a') /\
  forall a', trigger now p v a = JS.Normal a' ->
    forall later : Z, canTriggerAgain later a' = false.
Proof.
  split; [apply trigger_commits|].
  intros a' E later.
  destruct (trigger_result now p v a a' E) as (_ & Hst & _).
  apply gate_closed_unless_ACTIVE; rewrite Hst; discriminate.
Qed.

Lemma trigger_closes_gate_witness :
  exists a', trigger 5000000 (JS.Fin 151) None Sample.hourly = JS.Normal a' /\
    canTriggerAgain 9000000 a' = false.
Proof.
  destruct (trigger_closes_gate 5000000 (JS.Fin 151) None Sample.hourly)
    as (Hrun & Hshut).
  destruct Hrun as (a' & E); [split; reflexivity|].
  exists a'; split; [exact E | exact (Hshut a' E 9000000)].
Defined.

(** ** What [save()] does to the expiry date *)

Lemma save_expiresAt (a a' : Alert) :
  save a = JS.Normal a' ->
  expiresAt a' = match expiresAt a with
                 | Some x => Some x
                 | None => endDate a
                 end.
Proof.
  unfold save; intros H; injection H as <-.
  destruct (pre_save_stockSymbol_frame a) as [Hf Hx].
  unfold same_but_hooks in Hf; decompose [and] Hf; clear Hf.
  unfold pre_save_expiresAt.
  match goal with H : endDate _ = endDate a |- _ => rewrite H end.
  rewrite Hx.
  destruct (endDate a) eqn:Hend, (expiresAt a) eqn:Hexp; cbn; congruence.
Qed.

Lemma isExpired_of_expiresAt (now : Z) (a b : Alert) :
  expiresAt a = expiresAt b -> isExpired now a = isExpired now b.
Proof. unfold isExpired; intros ->; reflexivity. Qed.

Lemma snoozed_of_userPreferences (now : Z) (a b : Alert) :
  userPreferences a = userPreferences b -> snoozed now a = snoozed now b.
Proof. unfold snoozed; intros ->; reflexivity. Qed.

(** The hooks only fill fields that are still empty, so a saved document
    is a fixed point of [save()]. *)
Lemma saved_is_fixed_point (a a' : Alert) :
  save a = JS.Normal a' -> save a' = JS.Normal a'.
Proof.
  unfold save; intros H; injection H as <-; f_equal.
  destruct a as [stk sym cond st act ntf tAt tCnt tData eD eA up ver].
  unfold pre_save_expiresAt, pre_save_stockSymbol, stock_symbol; cbn.
  destruct stk as [| |s]; cbn.
  - destruct eD, eA; reflexivity.
  - destruct eD, eA; reflexivity.
  - destruct (String.eqb (Stock.symbol s) EmptyString) eqn:E1; cbn.
    + destruct eD, eA; cbn; rewrite ?E1; reflexivity.
    + destruct (String.eqb sym EmptyString) eqn:E2; cbn;
        destruct eD, eA; cbn; rewrite ?E1; cbn; rewrite ?E1, ?E2;
        reflexivity.
Qed.


(** X6: [save()] is idempotent: saving a document that has just been
    saved changes nothing, and every later save returns it again. *)
Theorem save_is_idempotent (a a' a'' : Alert) :
  save a = JS.Normal a' -> save a' = JS.Normal a'' ->
  a'' = a' /\ save a'' = JS.Normal a'.
Proof.
  intros H1 H2.
  pose proof (saved_is_fixed_point a a' H1) as Hfix.
  assert (a'' = a') by congruence; subst a''.
  split; [reflexivity | exact Hfix].
Qed.

Lemma save_is_idempotent_witness :
  exists a', save (Fixture.ending_at 1000) = JS.Normal a' /\
             save a' = JS.Normal a'.
Proof.
  eexists; split; [reflexivity|].
  apply (save_is_idempotent (Fixture.ending_at 1000) _ _ eq_refl eq_refl).
Defined.

(** X7: the first [save()] of an alert that has an [endDate] and no
    [expiresAt] makes the end date effective: [expiresAt] becomes the end
    date, and the gate is shut at every instant after it. *)
Theorem save_derives_expiry_from_endDate (a a' : Alert) (e now : Z) :
  save a = JS.Normal a' ->
  endDate a = Some e ->
  expiresAt a = None ->
  expiresAt a' = Some e /\ (e < now -> canTriggerAgain now a' = false).
Proof.
  intros Hs He Hx.
  assert (Hx' : expiresAt a' = Some e).
  { rewrite (save_expiresAt a a' Hs), Hx; exact He. }
  split; [exact Hx'|].
  intros Hlt.
  destruct (canTriggerAgain now a') eqn:G; [|reflexivity].
  apply gate_open_iff in G; destruct G as (_ & Hex & _).
  unfold isExpired in Hex; rewrite Hx' in Hex.
  apply Z.ltb_ge in Hex; lia.
Qed.

(** X8: [save()] never moves an [expiresAt] that is already set: after a
    change of [endDate] alone the alert keeps its old expiry date. *)
Theorem save_keeps_existing_expiresAt (a a' : Alert) (x : Z) :
  save a = JS.Normal a' ->
  expiresAt a = Some x ->
  expiresAt a' = Some x /\ endDate a' = endDate a /\
  (forall now, isExpired now a' = isExpired now a).
Proof.
  intros Hs Hx.
  assert (Hx' : expiresAt a' = Some x).
  { rewrite (save_expiresAt a a' Hs), Hx; reflexivity. }
  destruct (save_resolves a) as (b & Hb & Hf).
  assert (b = a') by congruence; subst b.
  unfold same_but_hooks in Hf; decompose [and] Hf; clear Hf.
  split; [exact Hx'|]. split; [assumption|].
  intros now; apply isExpired_of_expiresAt; congruence.
Qed.

(** ** How the lifecycle methods compose with the gate *)

(** X2: [reset()] reopens the gate: on the reset alert the status, quota
    and cooldown rules no longer block (for [maxSends > 0]); the gate is
    open exactly when the alert is not snoozed and not past its expiry
    date, the one it had or the one [save()] derives from [endDate]. *)
Theorem reset_reopens_gate (a : Alert) (now : Z) :
  exists a', reset a = JS.Normal a' /\
    (canTriggerAgain now a' = true <->
     (0 < maxSends (notification a))%Q /\
     snoozed now a = false /\
     match expiresAt a, endDate a with
     | Some e, _ => now <= e
     | None, Some e => now <= e
     | None, None => True
     end).
Proof.
  destruct (reset_spec a)
    as (a' & E & Hst & _ & _ & Hsc & Hls & Hms & _ & _ & _ & Hup).
  exists a'; split; [exact E|].
  assert (Hx : expiresAt a' = match expiresAt a with
                              | Some x => Some x
                              | None => endDate a
                              end).
  { unfold reset in E. apply save_expiresAt in E. exact E. }
  rewrite gate_open_iff, Hst, Hsc, Hls, Hms.
  rewrite (snoozed_of_userPreferences now a' a Hup).
  unfold isExpired; rewrite Hx.
  split.
  - intros (_ & Hex & Hq & Hsn & _).
    split; [exact Hq|]. split; [exact Hsn|].
    destruct (expiresAt a) as [e|]; [apply Z.ltb_ge in Hex; exact Hex|].
    destruct (endDate a) as [e|]; [apply Z.ltb_ge in Hex; exact Hex|exact I].
  - intros (Hq & Hsn & Hex).
    split; [reflexivity|]. split; [|split; [exact Hq|split; [exact Hsn|]]].
    + destruct (expiresAt a) as [e|]; [apply Z.ltb_ge; exact Hex|].
      destruct (endDate a) as [e|]; [apply Z.ltb_ge; exact Hex|reflexivity].
    + intros sent Hs; discriminate.
Qed.

(** X9: [trigger()] does not enforce the quota itself: called with a
    numeric price and volume on an alert whose whole-number [sendCount]
    has reached [maxSends], it still commits, the new [sendCount] exceeds
    [maxSends], and [isActive] is [false]. *)
Theorem trigger_does_not_enforce_quota (now : Z) (p : JS.num)
    (v : option JS.num) (a : Alert) (n : Z) :
  numeric p v ->
  is_count (sendCount (notification a)) n ->
  (maxSends (notification a) <= sendCount (notification a))%Q ->
  exists a', trigger now p v a = JS.Normal a' /\
    (maxSends (notification a') < sendCount (notification a'))%Q /\
    isActive a' = false.
Proof.
  intros Hnum _ Hq.
  destruct (trigger_commits now p v a Hnum) as (a' & E).
  destruct (trigger_result now p v a a' E)
    as (_ & _ & _ & _ & _ & Hsc & Hms & Hact & _).
  exists a'; split; [exact E|].
  rewrite Hsc, Hms; split; [lra|].
  rewrite Hact.
  destruct (Qle_bool (maxSends (notification a))
                     (sendCount (notification a) + 1)) eqn:Hle;
    [reflexivity|].
  apply Qle_bool_false_iff in Hle. lra.
Qed.

Lemma save_derives_expiry_from_endDate_witness :
  exists a', save (Fixture.ending_at 1000) = JS.Normal a' /\
    expiresAt a' = Some 1000 /\ canTriggerAgain 1001 a' = false.
Proof.
  eexists; split; [reflexivity|].
  destruct (save_derives_expiry_from_endDate
              (Fixture.ending_at 1000) _ 1000 1001
              eq_refl eq_refl eq_refl) as (Hx & Hg).
  split; [exact Hx | apply Hg; lia].
Defined.

Lemma save_keeps_existing_expiresAt_witness :
  exists a', save Fixture.end_moved = JS.Normal a' /\
    expiresAt a' = Some 1000 /\ endDate a' = Some 9000.
Proof.
  eexists; split; [reflexivity|].
  destruct (save_keeps_existing_expiresAt Fixture.end_moved _ 1000
              eq_refl eq_refl) as (Hx & He & _).
  split; [exact Hx | exact He].
Defined.

Lemma trigger_does_not_enforce_quota_witness :
  exists a', trigger 2000 (JS.Fin 151) None Fixture.exhausted = JS.Normal a' /\
    (maxSends (notification a') < sendCount (notification a'))%Q.
Proof.
  destruct (trigger_does_not_enforce_quota 2000 (JS.Fin 151) None
              Fixture.exhausted 1) as (a' & E & Hq & _).
  - split; reflexivity.
  - split; [reflexivity | lia].
  - discriminate.
  - exists a'; split; assumption.
Defined.

(** X3: [cancel()] is idempotent and final for the gate: cancelling a
    cancelled alert gives the same document again, and the gate of a
    cancelled alert is shut at every instant. *)
Theorem cancel_is_idempotent (a : Alert) :
  exists a', cancel a = JS.Normal a' /\
    cancel a' = JS.Normal a' /\
    status a' = CANCELLED /\ isActive a' = false /\
    forall now : Z, canTriggerAgain now a' = false.
Proof.
  destruct (cancel_spec a) as (a' & E & Hst & Hact).
  exists a'; split; [exact E|].
  split; [|split; [exact Hst|split; [exact Hact|]]].
  - unfold cancel in *.
    replace (set_isActive false (set_status CANCELLED a')) with a'.
    + eapply saved_is_fixed_point; exact E.
    + destruct a'; cbn in *; subst; reflexivity.
  - intros now; apply gate_closed_unless_ACTIVE; rewrite Hst; discriminate.
Qed.

(** X4: [disable()] followed by [enable()] is a round trip on an active
    alert: from a saved alert with status [ACTIVE] and [isActive = true],
    disabling and then enabling gives back the same document. *)
Theorem disable_then_enable_round_trip (a : Alert) :
  status a = ACTIVE -> isActive a = true ->
  save a = JS.Normal a ->
  exists d, disable a = JS.Normal d /\
    status d = DISABLED /\ isActive d = false /\
    enable d = JS.Normal a.
Proof.
  intros Hst Hact Hsaved.
  destruct (disable_spec a) as (d & E & Hd1 & Hd2).
  exists d; repeat split; try assumption.
  clear Hd1 Hd2.
  unfold disable, enable, save in *.
  injection E as <-. injection Hsaved as Hfix.
  destruct a as [stk sym cond st act ntf tAt tCnt tData eD eA up ver].
  cbn in Hst, Hact; subst st act.
  unfold pre_save_expiresAt, pre_save_stockSymbol, stock_symbol in *;
    cbn in *.
  destruct stk as [| |s]; cbn in *.
  - destruct eD, eA; first [reflexivity | discriminate Hfix].
  - destruct eD, eA; first [reflexivity | discriminate Hfix].
  - destruct (String.eqb (Stock.symbol s) EmptyString) eqn:E1; cbn in *.
    + destruct eD, eA; cbn in *; rewrite ?E1; cbn;
        first [reflexivity | discriminate Hfix].
    + destruct (String.eqb sym EmptyString) eqn:E2; cbn in *.
      * exfalso.
        assert (Hsym : Stock.symbol s = sym).
        { destruct eD, eA;
            unfold set_expiresAt, set_stockSymbol in Hfix; cbn in Hfix;
            congruence. }
        congruence.
      * destruct eD, eA; cbn in *; rewrite ?E1; cbn; rewrite ?E2; cbn;
          first [reflexivity | discriminate Hfix].
Qed.

Lemma disable_then_enable_round_trip_witness :
  exists d, disable Sample.fresh = JS.Normal d /\
    status d = DISABLED /\ enable d = JS.Normal Sample.fresh.
Proof.
  destruct (disable_then_enable_round_trip Sample.fresh
              eq_refl eq_refl eq_refl) as (d & E & Hst & _ & Hen).
  exists d; repeat split; assumption.
Defined.

(** X5: [snooze(minutes)], for a whole number of minutes.  When
    [now + minutes] is a valid date the call completes, the gate is
    [false] at every instant before the end of the snooze, the snooze rule
    no longer blocks from that end on (at once, for [minutes <= 0]), and
    status, [isActive] and the notification counters are unchanged.  When
    the date is out of range the call rejects with a [ValidationError]. *)
Theorem snooze_closes_gate_for_duration (now minutes : Z) (a : Alert) :
  (casts_to_Date (now + minutes * 60 * 1000) = true ->
   exists a', snooze now minutes a = JS.Normal a' /\
     status a' = status a /\ isActive a' = isActive a /\
     notification a' = notification a /\
     (forall t : Z, t < now + minutes * 60 * 1000 ->
                    canTriggerAgain t a' = false) /\
     (forall t : Z, now + minutes * 60 * 1000 <= t ->
                    snoozed t a' = false)) /\
  (casts_to_Date (now + minutes * 60 * 1000) = false ->
   snooze now minutes a = JS.Throw "ValidationError").
Proof.
  unfold snooze, save_assigned; cbv zeta; split; intros Hc; rewrite Hc;
    [|reflexivity].
  run_save a' Hf.
  unfold same_but_hooks in Hf; cbn in Hf.
  decompose [and] Hf; clear Hf.
  repeat split; try assumption.
  - intros t Ht. apply gate_closed_when_snoozed, snoozed_true_iff.
    exists (now + minutes * 60 * 1000); split; [|exact Ht].
    match goal with H : userPreferences a' = _ |- _ => rewrite H end.
    reflexivity.
  - intros t Ht. unfold snoozed.
    match goal with H : userPreferences a' = _ |- _ => rewrite H end.
    cbn. apply Z.ltb_ge; exact Ht.
Qed.

Lemma snooze_closes_gate_for_duration_witness :
  (exists a', snooze 1000 60 Sample.fresh = JS.Normal a' /\
     canTriggerAgain 3600999 a' = false /\ snoozed 3601000 a' = false) /\
  snooze 1000 100000000000000 Sample.fresh = JS.Throw "ValidationError".
Proof.
  split.
  - destruct (proj1 (snooze_closes_gate_for_duration 1000 60 Sample.fresh))
      as (a' & E & _ & _ & _ & Hshut & Hopen); [reflexivity|].
    exists a'; split; [exact E|].
    split; [apply Hshut; lia | apply Hopen; lia].
  - apply (proj2 (snooze_closes_gate_for_duration 1000 100000000000000
                    Sample.fresh)); reflexivity.
Defined.

(** ** The scan: query, loop and [checkStockAlerts] *)

(** X12: the query of [checkStockAlerts] selects an alert exactly when
    it is on the symbol, active, in status [ACTIVE], not expired, and not
    at the very instant of its expiry: on that one instant the query is
    stricter than [isExpired]. *)
Theorem query_selects_unexpired_active_alerts (now : Z) (sym : string)
    (a : Alert) :
  stock_query now sym a = true <->
  stockSymbol a = sym /\ isActive a = true /\ status a = ACTIVE /\
  isExpired now a = false /\ expiresAt a <> Some now.
Proof.
  unfold stock_query, isExpired.
  rewrite !andb_true_iff, String.eqb_eq.
  split.
  - intros (((Hs & Ha) & Hst) & He).
    destruct (status a); try discriminate.
    repeat split; try assumption.
    + destruct (expiresAt a) as [e|]; [|reflexivity].
      apply Z.ltb_lt in He; apply Z.ltb_ge; lia.
    + destruct (expiresAt a) as [e|]; [|discriminate].
      apply Z.ltb_lt in He; intros Heq; injection Heq as ->; lia.
  - intros (Hs & Ha & Hst & He & Hne).
    rewrite Hst; repeat split; try assumption.
    destruct (expiresAt a) as [e|]; [|reflexivity].
    apply Z.ltb_ge in He; apply Z.ltb_lt.
    assert (e <> now) by congruence. lia.
Qed.

Lemma unpopulated_has_no_stock_doc (a : Alert) :
  stock (unpopulated a) = StockNull \/ stock (unpopulated a) = StockId.
Proof.
  unfold unpopulated; destruct (stock a) eqn:E; cbn; auto.
Qed.

Lemma find_from_unpopulated (query : Alert -> bool) (db : list Alert)
    (i : nat) :
  Forall (fun c => stock (snd c) = StockNull \/ stock (snd c) = StockId)
         (find_from i query db).
Proof.
  revert i; induction db as [|a rest IH]; intros i; cbn.
  - constructor.
  - destruct (query a); [constructor|]; try apply IH.
    exact (unpopulated_has_no_stock_doc a).
Qed.

Lemma check_loop_without_stock (now : Z) (p : JS.num) (v : option JS.num)
    (alerts : list (nat * Alert)) (db acc : list Alert) :
  Forall (fun c => stock (snd c) = StockNull \/ stock (snd c) = StockId)
         alerts ->
  check_loop now p v alerts db acc = JS.Normal (acc, db).
Proof.
  induction 1 as [|[i a] rest Ha _ IH]; cbn [check_loop].
  - reflexivity.
  - cbn [snd] in Ha. rewrite (unpopulated_not_met a p v Ha); cbn.
    exact IH.
Qed.

(** X13: [checkStockAlerts] never triggers anything.  Its query populates
    [user] only, so every loaded alert has an [ObjectId] as [stock],
    [checkConditions] returns [false] for each of them, and the call
    resolves with an empty array and an unchanged collection, whatever
    the price, the volume and the stored alerts are. *)
Theorem checkStockAlerts_never_triggers (now : Z) (stk : Stock.t)
    (p : JS.num) (v : option JS.num) (db : list Alert) :
  checkStockAlerts now stk p v db = JS.Normal ([], db).
Proof.
  unfold checkStockAlerts.
  apply check_loop_without_stock, find_from_unpopulated.
Qed.

Lemma store_length (i : nat) (doc : Alert) (db : list Alert) :
  length (store i doc db) = length db.
Proof.
  revert i; induction db as [|a rest IH]; intros [|j]; cbn; auto.
Qed.

(** X14: what the loop of [checkStockAlerts] does with any list of
    candidates, for a numeric price and volume: it completes; the alerts
    it returns after the earlier entries are, in the order of the
    candidates, the committed [trigger()] results of exactly those
    candidates whose condition is met and whose gate is open; and the
    collection it leaves is the initial one with each of these documents
    written at the position of its candidate.  With a [NaN] argument the
    loop rejects as soon as one candidate is to be triggered. *)
Theorem check_loop_triggers_exactly_met_and_open (now : Z) (p : JS.num)
    (v : option JS.num) (alerts : list (nat * Alert))
    (db acc : list Alert) :
  (numeric p v ->
   exists out,
     check_loop now p v alerts db acc
     = JS.Normal (acc ++ out,
                  stored_all (filter (fires now p v) alerts) out db) /\
     Forall2 (fun c a' => trigger now p v (snd c) = JS.Normal a')
             (filter (fires now p v) alerts) out) /\
  (p = JS.NaN \/ v = Some JS.NaN ->
   filter (fires now p v) alerts <> [] ->
   check_loop now p v alerts db acc = JS.Throw "ValidationError").
Proof.
  split.
  - intros Hnum. revert db acc.
    induction alerts as [|[i a] rest IH]; intros db acc.
    + exists []; cbn; rewrite app_nil_r; split; [reflexivity|constructor].
    + cbn [check_loop filter].
      change (fires now p v (i, a))
        with (JS.truthy (checkConditions a p v) && canTriggerAgain now a).
      destruct (JS.truthy (checkConditions a p v) && canTriggerAgain now a).
      * destruct (trigger_commits now p v a Hnum) as (a' & E).
        rewrite E; cbn [JS.bind].
        destruct (IH (store i a' db) (acc ++ [a'])) as (out & Hrun & Hall).
        exists (a' :: out). rewrite Hrun, <- app_assoc; cbn [app].
        split; [reflexivity|].
        constructor; [exact E | exact Hall].
      * apply IH.
  - intros Hnan. revert db acc.
    induction alerts as [|[i a] rest IH]; intros db acc Hne.
    + cbn in Hne; congruence.
    + cbn [check_loop filter] in *.
      change (fires now p v (i, a))
        with (JS.truthy (checkConditions a p v) && canTriggerAgain now a)
        in Hne.
      destruct (JS.truthy (checkConditions a p v) && canTriggerAgain now a).
      * rewrite (trigger_rejects_NaN now p v a Hnan). reflexivity.
      * apply IH; exact Hne.
Qed.

Lemma check_loop_triggers_exactly_met_and_open_witness :
  (exists fired,
     check_loop 1000 (JS.Fin 151) None Fixture.populated_candidates
                Fixture.collection []
     = JS.Normal ([fired], store 0 fired Fixture.collection) /\
     trigger 1000 (JS.Fin 151) None Sample.fresh = JS.Normal fired) /\
  check_loop 1000 (JS.Fin 151) (Some JS.NaN) Fixture.populated_candidates
             Fixture.collection [] = JS.Throw "ValidationError".
Proof.
  split.
  - destruct (proj1 (check_loop_triggers_exactly_met_and_open
                       1000 (JS.Fin 151) None Fixture.populated_candidates
                       Fixture.collection [])) as (out & Hrun & Hall).
    + split; reflexivity.
    + cbn [filter] in *.
      inversion Hall as [|c a' cs out' Hc Hrest]; subst.
      inversion Hrest; subst.
      exists a'; split; [exact Hrun | exact Hc].
  - apply (proj2 (check_loop_triggers_exactly_met_and_open
                    1000 (JS.Fin 151) (Some JS.NaN)
                    Fixture.populated_candidates Fixture.collection []));
      [right; reflexivity | discriminate].
Defined.

(** The loop on populated candidates: the fresh alert fires, the cancelled
    one does not. *)
Example check_loop_on_populated_candidates :
  exists fired db',
    check_loop 1000 (JS.Fin 151) None Fixture.populated_candidates
               Fixture.collection [] = JS.Normal ([fired], db') /\
    status fired = TRIGGERED /\
    nth_error db' 0 = Some fired /\
    nth_error db' 2 = nth_error Fixture.collection 2.
Proof. do 2 eexists; repeat split. Qed.

(** ** More on the evaluator *)

Lemma is_zero_false_of_pos (c : Q) : (0 < c)%Q -> JS.is_zero c = false.
Proof.
  intros Hc; unfold JS.is_zero.
  destruct (Qeq_bool c 0) eqn:E; [|reflexivity].
  apply Qeq_bool_iff in E. rewrite E in Hc.
  exfalso; exact (Qlt_irrefl 0 Hc).
Qed.

(** Comparing a quotient times 100 with a target, without the division. *)
Lemma percent_cross_multiplied (t x c : Q) :
  (0 < c)%Q ->
  (Qle_bool t (x / c * 100) = true <-> (t * c <= x * 100)%Q).
Proof.
  intros Hc. rewrite Qle_bool_iff.
  assert (Hne : ~ (c == 0)%Q).
  { intros E; rewrite E in Hc; exact (Qlt_irrefl 0 Hc). }
  assert (Heq : (x / c * 100 * c == x * 100)%Q) by (field; exact Hne).
  rewrite <- (Qmult_le_r t (x / c * 100) c Hc), Heq.
  reflexivity.
Qed.

Lemma VBool_true_iff (b : bool) : JS.VBool b = JS.VBool true <-> b = true.
Proof. split; [intros H; injection H; trivial | intros ->; reflexivity]. Qed.

Lemma check_retyped (ty : ConditionType) (a : Alert) (s : Stock.t)
    (cp : Stock.CurrentPrice) (p : JS.num) (v : option JS.num) :
  stock a = StockDoc s -> Stock.currentPrice s = Some cp ->
  checkConditions (retyped ty a) p v
  = let target := targetValue (condition a) in
    let previousClose :=
      JS.toNumber (Stock.previousClose (Stock.dailyData s)) in
    match ty with
    | PRICE_ABOVE => JS.VBool (JS.ge p target)
    | PRICE_BELOW => JS.VBool (JS.le p target)
    | PRICE_PERCENT_UP =>
        JS.VBool (JS.ge (JS.mul (JS.div (JS.sub p previousClose)
                                        previousClose) (JS.Fin 100)) target)
    | PRICE_PERCENT_DOWN =>
        JS.VBool (JS.ge (JS.mul (JS.div (JS.sub previousClose p)
                                        previousClose) (JS.Fin 100)) target)
    | VOLUME_ABOVE => JS.and_then v (fun x => JS.ge x target)
    | VOLUME_BELOW => JS.and_then v (fun x => JS.le x target)
    | PRICE_CHANGE_UP => JS.VBool (JS.ge (JS.sub p previousClose) target)
    | PRICE_CHANGE_DOWN => JS.VBool (JS.ge (JS.sub previousClose p) target)
    end.
Proof.
  intros Hs Hcp; unfold checkConditions, retyped; cbn.
  rewrite Hs, Hcp; reflexivity.
Qed.

Lemma populated_currentPrice (a : Alert) (s : Stock.t) :
  populated a s ->
  stock a = StockDoc s /\ exists cp, Stock.currentPrice s = Some cp.
Proof.
  intros [Hs Hcp]; split; [exact Hs|].
  destruct (Stock.currentPrice s) as [cp|]; [exists cp; reflexivity|].
  congruence.
Qed.

(** X17: an alert on a rise and its twin on a fall of the same positive
    amount never fire together: for every price, [PRICE_CHANGE_UP] and
    [PRICE_CHANGE_DOWN] with the same target [t > 0] are not both met,
    whatever the previous close is (absent, infinite or [NaN] included). *)
Theorem change_up_and_down_exclusive (a : Alert) (s : Stock.t) (t : Q)
    (p : JS.num) (v : option JS.num) :
  populated a s ->
  targetValue (condition a) = JS.Fin t ->
  (0 < t)%Q ->
  ~ (JS.truthy (checkConditions (retyped PRICE_CHANGE_UP a) p v) = true /\
     JS.truthy (checkConditions (retyped PRICE_CHANGE_DOWN a) p v) = true).
Proof.
  intros Hpop Htg Ht.
  destruct (populated_currentPrice a s Hpop) as (Hs & cp & Hcp).
  rewrite !(check_retyped _ a s cp p v Hs Hcp); cbv zeta; rewrite Htg.
  destruct (JS.toNumber (Stock.previousClose (Stock.dailyData s)))
    as [c| | |];
    destruct p as [x| | |]; cbn; intros [Hup Hdown];
    try discriminate.
  apply Qle_bool_iff in Hup, Hdown. lra.
Qed.

Lemma change_up_and_down_exclusive_witness :
  ~ (JS.truthy (checkConditions (retyped PRICE_CHANGE_UP Sample.fresh)
                                (JS.Fin 300) None) = true /\
     JS.truthy (checkConditions (retyped PRICE_CHANGE_DOWN Sample.fresh)
                                (JS.Fin 300) None) = true).
Proof.
  apply (change_up_and_down_exclusive Sample.fresh Sample.aapl 150).
  - split; [reflexivity | discriminate].
  - reflexivity.
  - reflexivity.
Defined.

(** X20: with a positive previous close and a positive target,
    [PRICE_PERCENT_UP] and [PRICE_PERCENT_DOWN] on the same target are
    never both met at a finite price. *)
Theorem percent_up_and_down_exclusive (a : Alert) (s : Stock.t)
    (p c t : Q) (v : option JS.num) :
  populated a s ->
  Stock.previousClose (Stock.dailyData s) = Some (JS.Fin c) ->
  (0 < c)%Q ->
  targetValue (condition a) = JS.Fin t ->
  (0 < t)%Q ->
  ~ (checkConditions (retyped PRICE_PERCENT_UP a) (JS.Fin p) v
       = JS.VBool true /\
     checkConditions (retyped PRICE_PERCENT_DOWN a) (JS.Fin p) v
       = JS.VBool true).
Proof.
  intros Hpop Hprev Hc Htg Ht.
  destruct (populated_currentPrice a s Hpop) as (Hs & cp & Hcp).
  rewrite !(check_retyped _ a s cp (JS.Fin p) v Hs Hcp); cbv zeta.
  rewrite Htg, Hprev; cbn [JS.toNumber JS.sub JS.div].
  rewrite (is_zero_false_of_pos c Hc); cbn [JS.mul JS.ge].
  rewrite !VBool_true_iff, !(percent_cross_multiplied _ _ c Hc).
  intros [Hup Hdown].
  assert (Hpos : (0 < t * c)%Q) by (apply Qmult_lt_0_compat; assumption).
  lra.
Qed.

Lemma percent_up_and_down_exclusive_witness :
  ~ (checkConditions
       (retyped PRICE_PERCENT_UP
          (Sample.with_condition PRICE_PERCENT_DOWN 5 Sample.closed_at_100
                                 Sample.fresh))
       (JS.Fin 94) None = JS.VBool true /\
     checkConditions
       (retyped PRICE_PERCENT_DOWN
          (Sample.with_condition PRICE_PERCENT_DOWN 5 Sample.closed_at_100
                                 Sample.fresh))
       (JS.Fin 94) None = JS.VBool true).
Proof.
  apply (percent_up_and_down_exclusive _ Sample.closed_at_100 94 100 5).
  - split; [reflexivity | discriminate].
  - reflexivity.
  - reflexivity.
  - reflexivity.
  - reflexivity.
Defined.

(** X21: on finite numbers [PRICE_ABOVE] and [PRICE_BELOW] with the same
    target cover every price: at least one of them is met, and both are
    met exactly when the price equals the target. *)
Theorem price_above_and_below_cover (a : Alert) (s : Stock.t) (p t : Q)
    (v : option JS.num) :
  populated a s ->
  targetValue (condition a) = JS.Fin t ->
  (checkConditions (retyped PRICE_ABOVE a) (JS.Fin p) v = JS.VBool true \/
   checkConditions (retyped PRICE_BELOW a) (JS.Fin p) v = JS.VBool true) /\
  ((checkConditions (retyped PRICE_ABOVE a) (JS.Fin p) v = JS.VBool true /\
    checkConditions (retyped PRICE_BELOW a) (JS.Fin p) v = JS.VBool true)
   <-> (p == t)%Q).
Proof.
  intros Hpop Htg.
  destruct (populated_currentPrice a s Hpop) as (Hs & cp & Hcp).
  rewrite !(check_retyped _ a s cp (JS.Fin p) v Hs Hcp); cbv zeta.
  rewrite Htg; cbn [JS.ge JS.le].
  rewrite !VBool_true_iff, !Qle_bool_iff.
  split.
  - destruct (Qlt_le_dec p t) as [H|H]; [right; lra | left; exact H].
  - split; [intros [H1 H2]; lra | intros H; split; lra].
Qed.

Lemma price_above_and_below_cover_witness :
  checkConditions (retyped PRICE_ABOVE Sample.fresh) (JS.Fin 150) None
    = JS.VBool true /\
  checkConditions (retyped PRICE_BELOW Sample.fresh) (JS.Fin 150) None
    = JS.VBool true.
Proof.
  apply (price_above_and_below_cover Sample.fresh Sample.aapl 150 150 None).
  - split; [reflexivity | discriminate].
  - reflexivity.
  - reflexivity.
Defined.

(** X18: whenever the result of [checkConditions] is truthy it is the
    boolean [true]: the non-boolean results of the volume cases ([null],
    [0], [NaN]) are all falsy, so a caller testing for truthiness and a
    caller comparing with [true] agree. *)
Theorem truthy_result_is_true (a : Alert) (p : JS.num)
    (v : option JS.num) :
  JS.truthy (checkConditions a p v) = true ->
  checkConditions a p v = JS.VBool true.
Proof.
  unfold checkConditions.
  destruct (stock a) as [| |s]; try discriminate.
  destruct (Stock.currentPrice s); [|discriminate].
  destruct (type (condition a)); cbn [JS.truthy];
    try (intros ->; reflexivity);
    unfold JS.and_then; destruct v as [n|]; try discriminate;
    destruct (JS.num_truthy n) eqn:E; cbn [JS.truthy];
    try (intros ->; reflexivity); congruence.
Qed.

Lemma truthy_result_is_true_witness :
  checkConditions Sample.volume_below_1000 (JS.Fin 150) (Some (JS.Fin 500))
  = JS.VBool true.
Proof.
  apply (truthy_result_is_true Sample.volume_below_1000); reflexivity.
Defined.

Lemma ge_NaN_l (x : JS.num) : JS.ge JS.NaN x = false.
Proof. destruct x; reflexivity. Qed.

Lemma ge_NaN_r (x : JS.num) : JS.ge x JS.NaN = false.
Proof. destruct x; reflexivity. Qed.

Lemma div_NaN_l (x : JS.num) : JS.div JS.NaN x = JS.NaN.
Proof. destruct x; reflexivity. Qed.

(** X19: a price of [NaN] meets no condition: for each of the six price
    conditions [checkConditions(NaN, volume)] is [false], and a volume of
    [NaN] meets neither volume condition. *)
Theorem nan_input_is_never_met (a : Alert) (p : JS.num) (v : option JS.num) :
  (type (condition a) <> VOLUME_ABOVE ->
   type (condition a) <> VOLUME_BELOW ->
   checkConditions a JS.NaN v = JS.VBool false) /\
  (type (condition a) = VOLUME_ABOVE \/ type (condition a) = VOLUME_BELOW ->
   JS.truthy (checkConditions a p (Some JS.NaN)) = false).
Proof.
  unfold checkConditions; split.
  - intros Ha Hb.
    destruct (stock a) as [| |s]; try reflexivity.
    destruct (Stock.currentPrice s); [|reflexivity].
    destruct (type (condition a)); try congruence; unfold JS.le;
      rewrite ?sub_NaN_l, ?sub_NaN_r, ?div_NaN_l, ?ge_NaN_l, ?ge_NaN_r;
      cbn [JS.mul]; rewrite ?ge_NaN_l; reflexivity.
  - intros Hty.
    destruct (stock a) as [| |s]; try reflexivity.
    destruct (Stock.currentPrice s); [|reflexivity].
    destruct Hty as [-> | ->]; reflexivity.
Qed.

Lemma nan_input_is_never_met_witness :
  checkConditions Sample.percent_up_5 JS.NaN None = JS.VBool false /\
  JS.truthy (checkConditions Sample.volume_below_1000 (JS.Fin 150)
                             (Some JS.NaN)) = false.
Proof.
  split.
  - apply (proj1 (nan_input_is_never_met Sample.percent_up_5 JS.NaN None));
      discriminate.
  - apply (proj2 (nan_input_is_never_met Sample.volume_below_1000
                    (JS.Fin 150) None)).
    right; reflexivity.
Defined.

(** ** More on the lifecycle *)

(** X22: [enable()] does not give back a used-up quota: on an alert whose
    [sendCount] has reached [maxSends] it sets status [ACTIVE] and
    [isActive = true], so the scan query selects the alert again, but the
    gate stays shut at every instant. *)
Theorem enable_keeps_exhausted_alert_shut (a : Alert) :
  (maxSends (notification a) <= sendCount (notification a))%Q ->
  exists a', enable a = JS.Normal a' /\
    status a' = ACTIVE /\ isActive a' = true /\
    forall now : Z, canTriggerAgain now a' = false.
Proof.
  intros Hq. unfold enable.
  run_save a' Hf.
  unfold same_but_hooks in Hf; cbn in Hf.
  decompose [and] Hf; clear Hf.
  repeat split; try assumption.
  intros now.
  destruct (canTriggerAgain now a') eqn:G; [|reflexivity].
  apply gate_open_iff in G; destruct G as (_ & _ & Hlt & _).
  match goal with H : notification a' = _ |- _ => rewrite H in Hlt end.
  exfalso; exact (Qlt_not_le _ _ Hlt Hq).
Qed.

Lemma enable_keeps_exhausted_alert_shut_witness :
  exists a', enable Fixture.exhausted = JS.Normal a' /\
    isActive a' = true /\ canTriggerAgain 5000 a' = false.
Proof.
  destruct (enable_keeps_exhausted_alert_shut Fixture.exhausted)
    as (a' & E & _ & Hact & Hshut).
  - discriminate.
  - exists a'; split; [exact E|]. split; [exact Hact | apply Hshut].
Defined.



